(** * Verification of the CAPI cluster entity provider

    A shallow embedding of the Backstage catalog module that projects
    Cluster API [Cluster] objects of a hub cluster into catalog
    [Resource] entities: the configuration reader ([readProviderConfigs]),
    the kubeconfig secret decoder ([decodeKubeConfigFromSecret]) and the
    provider itself ([CAPIClusterProvider]: [refresh] and the scheduled
    wrapper around it), in its variant without and with kubeconfig lookup.

    JavaScript values are embedded as follows.
    - A property that holds [undefined], or is missing from a value read
      from the hub, is an [option] with [None].
    - An object used as a string-keyed dictionary is a [gmap string _].  The
      [annotations] object of an emitted entity is a
      [gmap string (option string)]: a key can be present and hold
      [undefined], which differs from the key being absent.
    - A thrown exception is the [Throw] case of [Result]; effects on the
      outside world (log lines, calls to the hub, calls to the catalog
      connection) are recorded in order in a trace of [Event]s. *)

From stdpp Require Import base option list strings gmap fin_maps.
From Stdlib Require Import Ascii String.

Local Open Scope string_scope.
Local Open Scope list_scope.

(** ** Exceptions and results *)

Inductive Exn : Type :=
| Error (msg : string)
| TypeError (msg : string).

Inductive Result (A : Type) : Type :=
| Ok (a : A)
| Throw (e : Exn).

Arguments Ok {A} a.
Arguments Throw {A} e.

(** [`${err}`] *)
Definition exnToString (e : Exn) : string :=
  match e with
  | Error msg => "Error: " ++ msg
  | TypeError msg => "TypeError: " ++ msg
  end.

#[global] Instance Result_ret : MRet Result := fun A a => Ok a.

#[global] Instance Result_bind : MBind Result := fun A B f r =>
  match r with
  | Ok a => f a
  | Throw e => Throw e
  end.

(** [xs.map(f)] where [f] may throw: elements are visited left to right and
    the first exception leaves the loop. *)
Fixpoint mapR {A B} (f : A -> Result B) (xs : list A) : Result (list B) :=
  match xs with
  | [] => Ok []
  | x :: xs' =>
      y ← f x;
      ys ← mapR f xs';
      Ok (y :: ys)
  end.

(** ** Strings: template literals, truthiness, [split] and [trim] *)

(** [`${v}`] for a value that is a string or [undefined]. *)
Definition tpl (v : option string) : string :=
  match v with
  | Some s => s
  | None => "undefined"
  end.

(** Truthiness of a string-or-undefined value: [undefined] and the empty
    string are falsy, every other string is truthy. *)
Definition truthy (v : option string) : bool :=
  match v with
  | None => false
  | Some s => negb (String.eqb s "")
  end.

(** [a || b] on string-or-undefined operands. *)
Definition jsOr (a b : option string) : option string :=
  if truthy a then a else b.

(** [a || b] where [b] is a string. *)
Definition jsOrElse (a : option string) (b : string) : string :=
  match a with
  | Some s => if String.eqb s "" then b else s
  | None => b
  end.

(** [a || b] where [a] is an array or [undefined]: every array is truthy,
    the empty one too. *)
Definition jsOrArray {A} (a b : option (list A)) : option (list A) :=
  match a with
  | Some xs => Some xs
  | None => b
  end.

(** [s.split(sep)] for a one-character separator.  The result always has at
    least one piece: [''.split(',')] is [['']]. *)
Fixpoint split (sep : ascii) (s : string) : list string :=
  match s with
  | EmptyString => [EmptyString]
  | String c rest =>
      if Ascii.eqb c sep then EmptyString :: split sep rest
      else
        match split sep rest with
        | piece :: pieces => String c piece :: pieces
        | [] => [String c EmptyString]
        end
  end.

(** White space removed by [String.prototype.trim], on the characters a
    [string] of 8-bit characters can hold: TAB, LF, VT, FF, CR, SPACE and
    NBSP.  *)
Definition isWhiteSpace (c : ascii) : bool :=
  let n := nat_of_ascii c in
  ((9 <=? n)%nat && (n <=? 13)%nat) || (n =? 32)%nat || (n =? 160)%nat.

Fixpoint trimStart (s : string) : string :=
  match s with
  | EmptyString => EmptyString
  | String c rest => if isWhiteSpace c then trimStart rest else s
  end.

(** [trimEnd] keeps a character when it is not white space or when
    something is left after trimming what follows it. *)
Fixpoint trimEnd (s : string) : string :=
  match s with
  | EmptyString => EmptyString
  | String c rest =>
      match trimEnd rest with
      | EmptyString => if isWhiteSpace c then EmptyString else String c EmptyString
      | kept => String c kept
      end
  end.

Definition trim (s : string) : string := trimEnd (trimStart s).

(** ** Constants *)

(** [constants.ts] *)
Definition ANNOTATION_CAPI_PROVIDER : string := "cluster.x-k8s.io/capi-provider".
Definition ANNOTATION_CAPI_CLUSTER_LIFECYCLE : string := "cluster.x-k8s.io/cluster-lifecycle".
Definition ANNOTATION_CAPI_CLUSTER_OWNER : string := "cluster.x-k8s.io/cluster-owner".
Definition ANNOTATION_CAPI_CLUSTER_DESCRIPTION : string := "cluster.x-k8s.io/cluster-description".
Definition ANNOTATION_CAPI_CLUSTER_SYSTEM : string := "cluster.x-k8s.io/cluster-system".
Definition ANNOTATION_CAPI_CLUSTER_TAGS : string := "cluster.x-k8s.io/cluster-tags".

(** Imported from [@backstage/catalog-model]. *)
Definition ANNOTATION_LOCATION : string := "backstage.io/managed-by-location".
Definition ANNOTATION_ORIGIN_LOCATION : string := "backstage.io/managed-by-origin-location".

(** Imported from [@backstage/plugin-kubernetes-common]. *)
Definition ANNOTATION_KUBERNETES_API_SERVER : string := "kubernetes.io/api-server".
Definition ANNOTATION_KUBERNETES_API_SERVER_CA : string :=
  "kubernetes.io/api-server-certificate-authority".
Definition ANNOTATION_KUBERNETES_AUTH_PROVIDER : string := "kubernetes.io/auth-provider".

(** [helpers/secret.ts] *)
Definition CAPI_CLUSTER_SECRET_TYPE : string := "cluster.x-k8s.io/secret".

(** [helpers/config.ts] *)
Definition DEFAULT_PROVIDER_ID : string := "default".
Definition PROVIDERS_PATH : string := "catalog.providers.capi".

(** ** Data model ([helpers/types.ts]) *)

Record ObjectReference : Type := {
  ref_kind : option string;
  ref_namespace : option string;
  ref_name : option string;
}.

(** The part of [KubernetesObject.metadata] the provider reads. *)
Record ObjectMeta : Type := {
  meta_name : option string;
  meta_namespace : option string;
  meta_annotations : option (gmap string string);
}.

Record ClusterSpec : Type := {
  spec_paused : bool;
  spec_controlPlaneRef : option ObjectReference;
  spec_infrastructureRef : option ObjectReference;
}.

Record ClusterStatus : Type := {
  status_phase : option string;
  status_infrastructureReady : bool;
  status_controlPlaneReady : bool;
}.

Record Cluster : Type := {
  cluster_metadata : option ObjectMeta;
  cluster_spec : ClusterSpec;
  cluster_status : option ClusterStatus;
}.

Record ProviderDefaults : Type := {
  def_clusterOwner : option string;
  def_system : option string;
  def_lifecycle : option string;
  def_tags : option (list string);
}.

(** [Schedule] stands for [TaskScheduleDefinition] of
    [@backstage/backend-tasks], which this module only passes along. *)
Record ProviderConfig (Schedule : Type) : Type := {
  cfg_id : string;
  cfg_hubClusterName : string;
  cfg_schedule : option Schedule;
  cfg_defaults : option ProviderDefaults;
}.

Arguments cfg_id {Schedule} _.
Arguments cfg_hubClusterName {Schedule} _.
Arguments cfg_schedule {Schedule} _.
Arguments cfg_defaults {Schedule} _.

(** [config.defaults?.field] *)
Definition defaultOf {Schedule A} (config : ProviderConfig Schedule)
    (field : ProviderDefaults -> option A) : option A :=
  match cfg_defaults config with
  | Some d => field d
  | None => None
  end.

(** ** Reading a cluster *)

(** [cluster.spec.infrastructureRef?.kind ?? ''] *)
Definition capiClusterProvider (cluster : Cluster) : string :=
  match spec_infrastructureRef (cluster_spec cluster) with
  | Some r =>
      match ref_kind r with
      | Some k => k
      | None => ""
      end
  | None => ""
  end.

(** [`${cluster.metadata?.namespace}/${cluster.metadata?.name}`] *)
(** [cluster.metadata?.name] and [cluster.metadata?.namespace] *)
Definition nameOf (cluster : Cluster) : option string :=
  match cluster_metadata cluster with
  | Some md => meta_name md
  | None => None
  end.

Definition namespaceOf (cluster : Cluster) : option string :=
  match cluster_metadata cluster with
  | Some md => meta_namespace md
  | None => None
  end.

(** [`${cluster.metadata?.namespace}/${cluster.metadata?.name}`] *)
Definition clusterName (cluster : Cluster) : string :=
  tpl (namespaceOf cluster) ++ "/" ++ tpl (nameOf cluster).

(** [cluster.metadata?.annotations?.[key]] *)
Definition annotationOf (cluster : Cluster) (key : string) : option string :=
  match cluster_metadata cluster with
  | Some md =>
      match meta_annotations md with
      | Some anns => anns !! key
      | None => None
      end
  | None => None
  end.

Record ClusterAnnotations : Type := {
  ann_lifecycle : option string;
  ann_owner : option string;
  ann_description : option string;
  ann_system : option string;
  ann_tags : option (list string);
}.

Definition clusterAnnotations (cluster : Cluster) : ClusterAnnotations :=
  {| ann_lifecycle := annotationOf cluster ANNOTATION_CAPI_CLUSTER_LIFECYCLE;
     ann_owner := annotationOf cluster ANNOTATION_CAPI_CLUSTER_OWNER;
     ann_description := annotationOf cluster ANNOTATION_CAPI_CLUSTER_DESCRIPTION;
     ann_system := annotationOf cluster ANNOTATION_CAPI_CLUSTER_SYSTEM;
     ann_tags :=
       (fun s => map trim (split "," s)) <$>
         annotationOf cluster ANNOTATION_CAPI_CLUSTER_TAGS |}.

(** ** Configuration ([helpers/config.ts]) *)

(** The [Config] interface of [@backstage/config], restricted to the methods
    the module calls.  A method that throws (a required value is missing, a
    value has the wrong type) returns [Throw]. *)
Class Config (C : Type) : Type := {
  has : C -> string -> bool;
  keys : C -> list string;
  getConfig : C -> string -> Result C;
  getOptionalConfig : C -> string -> Result (option C);
  getString : C -> string -> Result string;
  getOptionalString : C -> string -> Result (option string);
  getOptionalStringArray : C -> string -> Result (option (list string));
}.

Section ReadProviderConfigs.
Context {C : Type} `{Config C} {Schedule : Type}.

(** [readTaskScheduleDefinitionFromConfig] of [@backstage/backend-tasks]. *)
Variable readTaskScheduleDefinitionFromConfig : C -> Result Schedule.

Definition parseDefaults (config : option C) : Result (option ProviderDefaults) :=
  match config with
  | None => Ok None
  | Some config =>
      clusterOwner ← getOptionalString config "clusterOwner";
      system ← getOptionalString config "system";
      lifecycle ← getOptionalString config "lifecycle";
      tags ← getOptionalStringArray config "tags";
      Ok (Some {| def_clusterOwner := clusterOwner;
                  def_system := system;
                  def_lifecycle := lifecycle;
                  def_tags := tags |})
  end.

Definition readProviderConfig (id : string) (config : C)
    : Result (ProviderConfig Schedule) :=
  hubClusterName ← getString config "hubClusterName";
  schedule ←
    (if has config "schedule"
     then
       scheduleConfig ← getConfig config "schedule";
       definition ← readTaskScheduleDefinitionFromConfig scheduleConfig;
       Ok (Some definition)
     else Ok None);
  defaultsConfig ← getOptionalConfig config "defaults";
  defaults ← parseDefaults defaultsConfig;
  Ok {| cfg_id := id;
        cfg_hubClusterName := hubClusterName;
        cfg_schedule := schedule;
        cfg_defaults := defaults |}.

(** The callback of [keys().map] in [readProviderConfigs]. *)
Definition readChild (providersConfig : C) (name : string)
    : Result (ProviderConfig Schedule) :=
  providerConfig ← getConfig providersConfig name;
  readProviderConfig name providerConfig.

Definition readProviderConfigs (config : C)
    : Result (list (ProviderConfig Schedule)) :=
  providersConfig ← getOptionalConfig config PROVIDERS_PATH;
  match providersConfig with
  | None => Ok []
  | Some providersConfig =>
      if has providersConfig "hubClusterName"
      then
        providerConfig ← readProviderConfig DEFAULT_PROVIDER_ID providersConfig;
        Ok [providerConfig]
      else
        mapR (readChild providersConfig) (keys providersConfig)
  end.

End ReadProviderConfigs.

(** *** A tree-backed [Config]

    [ConfigReader] of [@backstage/config] wraps a JSON object and resolves
    dotted keys by walking it.  The instance below follows that reader on
    the value kinds the provider configuration uses; it serves to run
    [readProviderConfigs] on concrete configuration documents. *)

#[local] Unset Elimination Schemes.
Inductive JsonValue : Type :=
| JStr (s : string)
| JNum (n : nat)
| JBool (b : bool)
| JArr (items : list JsonValue)
| JObj (fields : list (string * JsonValue)).
#[local] Set Elimination Schemes.

Record ConfigReader : Type := { cr_data : list (string * JsonValue) }.

Fixpoint field (name : string) (fields : list (string * JsonValue)) : option JsonValue :=
  match fields with
  | [] => None
  | (k, v) :: rest => if String.eqb k name then Some v else field name rest
  end.

(** Walk [parts] down from [value]; stepping into a value that is not an
    object is a type error, stepping from a missing value stays missing. *)
Fixpoint walk (parts : list string) (value : option JsonValue) : Result (option JsonValue) :=
  match parts with
  | [] => Ok value
  | part :: rest =>
      match value with
      | Some (JObj fields) => walk rest (field part fields)
      | Some _ => Throw (TypeError "Invalid type in config, wanted object")
      | None => walk rest None
      end
  end.

Definition readValue (c : ConfigReader) (key : string) : Result (option JsonValue) :=
  walk (split "." key) (Some (JObj (cr_data c))).

Definition missing {A} (key : string) : Result A :=
  Throw (Error ("Missing required config value at '" ++ key ++ "'")).

Definition wrongType {A} (key wanted : string) : Result A :=
  Throw (TypeError ("Invalid type in config for key '" ++ key ++ "', wanted " ++ wanted)).

Definition asStrings (key : string) (items : list JsonValue) : Result (list string) :=
  mapR (fun v => match v with JStr s => Ok s | _ => wrongType key "string-array" end) items.

#[global] Instance ConfigReader_Config : Config ConfigReader := {|
  has c key :=
    match readValue c key with
    | Ok (Some _) => true
    | _ => false
    end;
  keys c := map fst (cr_data c);
  getConfig c key :=
    v ← readValue c key;
    match v with
    | Some (JObj fields) => Ok {| cr_data := fields |}
    | Some _ => wrongType key "object"
    | None => missing key
    end;
  getOptionalConfig c key :=
    v ← readValue c key;
    match v with
    | Some (JObj fields) => Ok (Some {| cr_data := fields |})
    | Some _ => wrongType key "object"
    | None => Ok None
    end;
  getString c key :=
    v ← readValue c key;
    match v with
    | Some (JStr s) => Ok s
    | Some _ => wrongType key "string"
    | None => missing key
    end;
  getOptionalString c key :=
    v ← readValue c key;
    match v with
    | Some (JStr s) => Ok (Some s)
    | Some _ => wrongType key "string"
    | None => Ok None
    end;
  getOptionalStringArray c key :=
    v ← readValue c key;
    match v with
    | Some (JArr items) => strings ← asStrings key items; Ok (Some strings)
    | Some _ => wrongType key "string-array"
    | None => Ok None
    end;
|}.

(** A schedule block is kept as the object it was read from. *)
Definition scheduleOfConfig (c : ConfigReader) : Result (list (string * JsonValue)) :=
  Ok (cr_data c).

(** The configuration documents of the module's README and tests. *)
Definition noProvidersDoc : ConfigReader := {| cr_data := [] |}.

Definition singleProviderDoc : ConfigReader :=
  {| cr_data :=
       [("catalog", JObj [("providers", JObj [("capi", JObj
          [("hubClusterName", JStr "demo-cluster");
           ("defaults", JObj [("clusterOwner", JStr "group:team-lucky")])])])])] |}.

Definition multiProviderDoc : ConfigReader :=
  {| cr_data :=
       [("catalog", JObj [("providers", JObj [("capi", JObj
          [("default", JObj
              [("hubClusterName", JStr "default");
               ("defaults", JObj [("clusterOwner", JStr "group:team-lucky")])]);
           ("cluster1", JObj
              [("hubClusterName", JStr "eu-cluster");
               ("defaults", JObj [("clusterOwner", JStr "group:team-notso")])])])])])] |}.

(** ** The catalog entity and the mutation sent to the catalog *)

Record EntityMeta : Type := {
  em_name : option string;
  em_title : option string;
  em_description : option string;
  em_annotations : gmap string (option string);
  em_tags : option (list string);
}.

Record EntitySpec : Type := {
  es_owner : string;
  es_type : string;
  es_lifecycle : option string;
  es_system : option string;
}.

Record ResourceEntity : Type := {
  ent_kind : string;
  ent_apiVersion : string;
  ent_metadata : EntityMeta;
  ent_spec : EntitySpec;
}.

Record DeferredEntity : Type := {
  entity : ResourceEntity;
  locationKey : string;
}.

(** [EntityProviderMutation] of [@backstage/plugin-catalog-node]. *)
Inductive EntityProviderMutation : Type :=
| FullMutation (entities : list DeferredEntity)
| DeltaMutation (added removed : list DeferredEntity).

(** [resource.metadata.annotations[key] = value] *)
Definition setAnnotation (key : string) (value : option string)
    (resource : ResourceEntity) : ResourceEntity :=
  let md := ent_metadata resource in
  {| ent_kind := ent_kind resource;
     ent_apiVersion := ent_apiVersion resource;
     ent_metadata :=
       {| em_name := em_name md;
          em_title := em_title md;
          em_description := em_description md;
          em_annotations := <[key := value]> (em_annotations md);
          em_tags := em_tags md |};
     ent_spec := ent_spec resource |}.

(** ** Kubeconfigs and secrets ([@kubernetes/client-node]) *)

(** One entry of [KubeConfig.clusters]. *)
Record KubeCluster : Type := {
  kc_name : string;
  kc_server : string;
  kc_caData : option string;
  kc_skipTLSVerify : bool;
}.

(** The provider reads [clusters] only; users and contexts are left out. *)
Record KubeConfig : Type := { clusters : list KubeCluster }.

Record V1Secret : Type := {
  secret_name : option string;
  secret_type : option string;
  secret_data : option (gmap string string);
}.

(** What [new KubeConfig()] followed by [kc.loadFromString(text)] does: the
    call returns, or it throws; in both cases [kc] is left in some state. *)
Inductive LoadOutcome : Type :=
| Loaded (kc : KubeConfig)
| LoadFailed (err : Exn) (kc : KubeConfig).

(** The client library as far as [helpers/secret.ts] uses it. *)
Record KubeConfigLibrary : Type := {
  (** [Buffer.from(str, 'base64').toString('binary')] *)
  decodeBase64 : string -> string;
  (** [const kc = new KubeConfig(); kc.loadFromString(text)] *)
  loadFromString : string -> LoadOutcome;
}.

(** ** Effects *)

Inductive Level : Type := LInfo | LError.

Inductive Event : Type :=
| EvLog (level : Level) (message : string) (err : option Exn)
| EvListClusterCustomObject (group version plural : string)
| EvReadNamespacedSecret (name namespace : string)
| EvApplyMutation (mutation : EntityProviderMutation).

(** An asynchronous computation that has run to its end: the events it
    caused, in order, and how it settled. *)
Record Task (A : Type) : Type := mkTask {
  trace : list Event;
  outcome : Result A;
}.

Arguments mkTask {A} trace outcome.
Arguments trace {A} _.
Arguments outcome {A} _.

#[global] Instance Task_ret : MRet Task := fun A a => mkTask [] (Ok a).

#[global] Instance Task_bind : MBind Task := fun A B f m =>
  match outcome m with
  | Ok a => mkTask (trace m ++ trace (f a)) (outcome (f a))
  | Throw e => mkTask (trace m) (Throw e)
  end.

Definition emit (ev : Event) : Task unit := mkTask [ev] (Ok tt).

Definition throw {A} (e : Exn) : Task A := mkTask [] (Throw e).

Definition liftResult {A} (r : Result A) : Task A := mkTask [] r.

(** [try { body } catch (e) { handler(e) }], and [promise.catch(handler)]. *)
Definition tryCatch {A} (body : Task A) (handler : Exn -> Task A) : Task A :=
  match outcome body with
  | Ok a => body
  | Throw e => mkTask (trace body ++ trace (handler e)) (outcome (handler e))
  end.

(** [Promise.all(xs.map(f))].  The tasks are started in list order and do
    not influence each other's result; the trace lists their events task by
    task, which is one of the orders in which they can interleave. *)
Fixpoint mapT {A B} (f : A -> Task B) (xs : list A) : Task (list B) :=
  match xs with
  | [] => mret []
  | x :: xs' =>
      y ← f x;
      ys ← mapT f xs';
      mret (y :: ys)
  end.

Definition logInfo (message : string) : Task unit := emit (EvLog LInfo message None).

Definition logError (message : string) (err : Exn) : Task unit :=
  emit (EvLog LError message (Some err)).

(** The mutations handed to [applyMutation], in order. *)
Fixpoint appliedMutations (events : list Event) : list EntityProviderMutation :=
  match events with
  | [] => []
  | EvApplyMutation m :: rest => m :: appliedMutations rest
  | _ :: rest => appliedMutations rest
  end.

(** The two API clients of [@kubernetes/client-node], each given by what
    the hub's API server answers to the one call made through it.
    [listClusterCustomObject] answers with the [items] of the list wrapper
    that [kubeApiResponseHandler] unwraps. *)
Record CustomObjectsApi : Type := {
  listClusterCustomObject : string -> string -> string -> Result (list Cluster);
}.

Record CoreV1Api : Type := {
  readNamespacedSecret : string -> string -> Result V1Secret;
}.

(** [EntityProviderConnection]: the promise [applyMutation] returns settles
    as the catalog decides. *)
Record EntityProviderConnection : Type := {
  applyMutationResult : EntityProviderMutation -> Result unit;
}.

Definition applyMutation (connection : EntityProviderConnection)
    (mutation : EntityProviderMutation) : Task unit :=
  mkTask [EvApplyMutation mutation] (applyMutationResult connection mutation).

(** [helpers/kubernetes.ts] *)
Definition getCAPIClusters (api : CustomObjectsApi) : Task (list Cluster) :=
  mkTask [EvListClusterCustomObject "cluster.x-k8s.io" "v1beta1" "clusters"]
         (listClusterCustomObject api "cluster.x-k8s.io" "v1beta1" "clusters").

(** The unit of work handed to [taskRunner.run]. *)
Record ScheduledTask : Type := {
  task_id : string;
  task_fn : Task unit;
}.

(** An object literal with computed keys, and [new Map(entries)]: a later
    entry replaces an earlier one with the same key. *)
Definition objectOf {V} (props : list (string * V)) : gmap string V :=
  foldl (fun o kv => <[kv.1 := kv.2]> o) ∅ props.

(** ** [helpers/secret.ts] *)

Section Secret.
Variable lib : KubeConfigLibrary.

(** [secret.data?.value ?? ''] *)
Definition secretValue (secret : V1Secret) : string :=
  match secret_data secret with
  | Some data =>
      match data !! "value" with
      | Some v => v
      | None => ""
      end
  | None => ""
  end.

Definition decodeKubeConfigFromSecret (secret : V1Secret) : Task KubeConfig :=
  let decoded := decodeBase64 lib (secretValue secret) in
  match loadFromString lib decoded with
  | Loaded kc => mret kc
  | LoadFailed err kc =>
      logInfo ("caught error " ++ exnToString err);;
      mret kc
  end.

Definition getClusterKubeConfig (client : CoreV1Api) (name namespace : string)
    : Task KubeConfig :=
  body ← mkTask [EvReadNamespacedSecret name namespace]
                (readNamespacedSecret client name namespace);
  decodeKubeConfigFromSecret body.

End Secret.

(** ** The provider without kubeconfig lookup *)

Module Basic.

Record CAPIClusterProvider (Schedule : Type) : Type := {
  client : CustomObjectsApi;
  config : ProviderConfig Schedule;
  connection : option EntityProviderConnection;
}.

Arguments client {Schedule} _.
Arguments config {Schedule} _.
Arguments connection {Schedule} _.

Section Provider.
Context {Schedule : Type}.
Variable this : CAPIClusterProvider Schedule.

Definition getProviderName : string :=
  "CAPIClusterProvider:" ++ cfg_id (config this).

(** The callback of [items.map] in [refresh]. *)
Definition toResource (cluster : Cluster) : ResourceEntity :=
  let a := clusterAnnotations cluster in
  {| ent_kind := "Resource";
     ent_apiVersion := "backstage.io/v1beta1";
     ent_metadata :=
       {| em_name := nameOf cluster;
          em_title := nameOf cluster;
          em_description := ann_description a;
          em_annotations :=
            objectOf
              [(ANNOTATION_LOCATION, Some getProviderName);
               (ANNOTATION_ORIGIN_LOCATION, Some getProviderName);
               (ANNOTATION_CAPI_PROVIDER, Some (capiClusterProvider cluster))];
          em_tags := jsOrArray (ann_tags a) (defaultOf (config this) def_tags) |};
     ent_spec :=
       {| es_owner :=
            jsOrElse (jsOr (ann_owner a) (defaultOf (config this) def_clusterOwner))
                     "guest";
          es_type := "kubernetes-cluster";
          es_lifecycle := jsOr (ann_lifecycle a) (defaultOf (config this) def_lifecycle);
          es_system := jsOr (ann_system a) (defaultOf (config this) def_system) |} |}.

Definition refresh : Task unit :=
  match connection this with
  | None => throw (Error "Not initialized")
  | Some connection =>
      logInfo ("Providing CAPI Cluster resources from cluster "
               ++ cfg_hubClusterName (config this));;
      clusters ← getCAPIClusters (client this);
      let resources := map toResource clusters in
      applyMutation connection
        (FullMutation
           (map (fun entity => {| entity := entity; locationKey := getProviderName |})
                resources))
  end.

(** What [createScheduleFn] hands to the task runner. *)
Definition createScheduleFn : ScheduledTask :=
  {| task_id := getProviderName ++ ":refresh";
     task_fn :=
       tryCatch refresh
         (fun error => logError (getProviderName ++ " refresh failed") error) |}.

End Provider.

Definition connect {Schedule} (this : CAPIClusterProvider Schedule)
    (connection : EntityProviderConnection)
    : CAPIClusterProvider Schedule * ScheduledTask :=
  let this' := {| client := client this;
                  config := config this;
                  connection := Some connection |} in
  (this', createScheduleFn this').

End Basic.

(** ** The provider with kubeconfig lookup *)

Module WithKubeConfig.

Record CAPIClusterProvider (Schedule : Type) : Type := {
  customObjectsClient : CustomObjectsApi;
  client : CoreV1Api;
  config : ProviderConfig Schedule;
  connection : option EntityProviderConnection;
}.

Arguments customObjectsClient {Schedule} _.
Arguments client {Schedule} _.
Arguments config {Schedule} _.
Arguments connection {Schedule} _.

Section Provider.
Context {Schedule : Type}.
Variable lib : KubeConfigLibrary.
Variable this : CAPIClusterProvider Schedule.

Definition getProviderName : string :=
  "CAPIClusterProvider:" ++ cfg_id (config this).

(** [kubeConfigs.get(key)]: [undefined] for a key that is not in the map
    and for a key that maps to [undefined]. *)
Definition mapGet (kubeConfigs : gmap string (option KubeConfig)) (key : string)
    : option KubeConfig :=
  match kubeConfigs !! key with
  | Some v => v
  | None => None
  end.

(** [clusterKubeConfig?.clusters[0].prop]: the optional chain stops at an
    [undefined] kubeconfig only; reading a property of a missing first
    cluster throws. *)
Definition firstClusterProp {A} (clusterKubeConfig : option KubeConfig)
    (prop : string) (get : KubeCluster -> option A) : Result (option A) :=
  match clusterKubeConfig with
  | None => Ok None
  | Some kc =>
      match clusters kc !! 0%nat with
      | Some cluster => Ok (get cluster)
      | None =>
          Throw (TypeError ("Cannot read properties of undefined (reading '"
                            ++ prop ++ "')"))
      end
  end.

(** The callback of [clusters.items.map] that starts one secret lookup. *)
Definition lookupKubeConfig (cluster : Cluster) : Task (string * option KubeConfig) :=
  logInfo ("Getting KubeConfig Secret for " ++ clusterName cluster);;
  kubeConfig ←
    tryCatch
      (kc ← getClusterKubeConfig lib (client this)
              (tpl (nameOf cluster) ++ "-kubeconfig")
              (jsOrElse (namespaceOf cluster) "default");
       mret (Some kc))
      (fun e => mret None);
  mret (clusterName cluster, kubeConfig).

(** The callback of [items.map] that builds the entities. *)
Definition toResource (kubeConfigs : gmap string (option KubeConfig))
    (cluster : Cluster) : Result ResourceEntity :=
  let a := clusterAnnotations cluster in
  let clusterKubeConfig := mapGet kubeConfigs (clusterName cluster) in
  server ← firstClusterProp clusterKubeConfig "server" (fun c => Some (kc_server c));
  caData ← firstClusterProp clusterKubeConfig "caData" kc_caData;
  let resource :=
    {| ent_kind := "Resource";
       ent_apiVersion := "backstage.io/v1beta1";
       ent_metadata :=
         {| em_name := nameOf cluster;
            em_title := nameOf cluster;
            em_description := ann_description a;
            em_annotations :=
              objectOf
                [(ANNOTATION_LOCATION, Some getProviderName);
                 (ANNOTATION_ORIGIN_LOCATION, Some getProviderName);
                 (ANNOTATION_CAPI_PROVIDER, Some (capiClusterProvider cluster));
                 (ANNOTATION_KUBERNETES_API_SERVER, server);
                 (ANNOTATION_KUBERNETES_API_SERVER_CA, caData);
                 (ANNOTATION_KUBERNETES_AUTH_PROVIDER, Some "oidc")];
            em_tags := jsOrArray (ann_tags a) (defaultOf (config this) def_tags) |};
       ent_spec :=
         {| es_owner :=
              jsOrElse (jsOr (ann_owner a) (defaultOf (config this) def_clusterOwner))
                       "guest";
            es_type := "kubernetes-cluster";
            es_lifecycle := jsOr (ann_lifecycle a) (defaultOf (config this) def_lifecycle);
            es_system := jsOr (ann_system a) (defaultOf (config this) def_system) |} |} in
  match clusterKubeConfig with
  | Some _ =>
      server' ← firstClusterProp clusterKubeConfig "server" (fun c => Some (kc_server c));
      let resource := setAnnotation ANNOTATION_KUBERNETES_API_SERVER server' resource in
      caData' ← firstClusterProp clusterKubeConfig "caData" kc_caData;
      let resource := setAnnotation ANNOTATION_KUBERNETES_API_SERVER_CA caData' resource in
      Ok (setAnnotation ANNOTATION_KUBERNETES_AUTH_PROVIDER (Some "oidc") resource)
  | None => Ok resource
  end.

Definition refresh : Task unit :=
  match connection this with
  | None => throw (Error "Not initialized")
  | Some connection =>
      logInfo ("Providing CAPI Cluster resources from cluster "
               ++ cfg_hubClusterName (config this));;
      clusters ← getCAPIClusters (customObjectsClient this);
      clusterKubeConfigs ← mapT lookupKubeConfig clusters;
      let kubeConfigs := objectOf clusterKubeConfigs in
      resources ← liftResult (mapR (toResource kubeConfigs) clusters);
      applyMutation connection
        (FullMutation
           (map (fun entity => {| entity := entity; locationKey := getProviderName |})
                resources))
  end.

(** What [createScheduleFn] hands to the task runner. *)
Definition createScheduleFn : ScheduledTask :=
  {| task_id := getProviderName ++ ":refresh";
     task_fn :=
       tryCatch refresh
         (fun error => logError (getProviderName ++ " refresh failed") error) |}.

End Provider.

Definition connect {Schedule} (lib : KubeConfigLibrary)
    (this : CAPIClusterProvider Schedule) (connection : EntityProviderConnection)
    : CAPIClusterProvider Schedule * ScheduledTask :=
  let this' := {| customObjectsClient := customObjectsClient this;
                  client := client this;
                  config := config this;
                  connection := Some connection |} in
  (this', createScheduleFn lib this').

End WithKubeConfig.

(** ** The cluster locator and the hub client ([helpers/config.ts],
    [helpers/kubernetes.ts]) *)

(** The list and boolean readers of the [Config] interface. *)
Class ConfigLists (C : Type) `{Config C} : Type := {
  getConfigArray : C -> string -> Result (list C);
  getOptionalConfigArray : C -> string -> Result (option (list C));
  getOptionalBoolean : C -> string -> Result (option bool);
}.

Definition CLUSTERS_PATH : string := "kubernetes.clusterLocatorMethods".

(** The string a truthy string-or-undefined value holds; [None] for a falsy
    one, which [if (!v)] sends to the other branch. *)
Definition truthyString (v : option string) : option string :=
  match v with
  | Some s => if String.eqb s "" then None else Some s
  | None => None
  end.

(** [xs.flatMap(f)] and [xs.find(p)] for callbacks that may throw. *)
Fixpoint flatMapR {A B} (f : A -> Result (list B)) (xs : list A) : Result (list B) :=
  match xs with
  | [] => Ok []
  | x :: xs' =>
      ys ← f x;
      rest ← flatMapR f xs';
      Ok (ys ++ rest)
  end.

Fixpoint findR {A} (p : A -> Result bool) (xs : list A) : Result (option A) :=
  match xs with
  | [] => Ok None
  | x :: xs' =>
      hit ← p x;
      if hit : bool then Ok (Some x) else findR p xs'
  end.

Record KubeUser : Type := {
  ku_name : string;
  ku_token : string;
}.

Record KubeContext : Type := {
  kx_name : string;
  kx_user : string;
  kx_cluster : string;
}.

(** The argument of [KubeConfig.loadFromOptions]. *)
Record KubeConfigOptions : Type := {
  opt_clusters : list KubeCluster;
  opt_users : list KubeUser;
  opt_contexts : list KubeContext;
  opt_currentContext : string;
}.

(** How a new [KubeConfig] was filled: [loadFromDefault()] takes the
    process environment, [loadFromOptions(options)] takes [options]. *)
Inductive KubeConfigSource : Type :=
| LoadFromDefault
| LoadFromOptions (options : KubeConfigOptions).

Section HubClient.
Context {C : Type} `{ConfigLists C}.

(** [kubeConfig.makeApiClient(CustomObjectsApi)]: the hub reached through a
    kubeconfig. *)
Variable makeApiClient : KubeConfigSource -> CustomObjectsApi.

(** The callback of [flatMap]:
    [method.getOptionalConfigArray('clusters') || []] *)
Definition clustersOfMethod (method : C) : Result (list C) :=
  clusters ← getOptionalConfigArray method "clusters";
  Ok (default [] clusters).

(** The callback of [find]: [listCluster.getString('name') === hubName] *)
Definition isNamed (hubName : string) (listCluster : C) : Result bool :=
  name ← getString listCluster "name";
  Ok (String.eqb name hubName).

Definition getCAPIClusterFromKubernetesConfig (hubName : string) (config : C)
    : Result C :=
  methods ← getConfigArray config CLUSTERS_PATH;
  listed ← flatMapR clustersOfMethod methods;
  cluster ← findR (isNamed hubName) listed;
  match cluster with
  | Some cluster => Ok cluster
  | None =>
      Throw (Error ("CAPI hub cluster " ++ hubName
                    ++ " not defined in kubernetes config"))
  end.

(** [helpers/kubernetes.ts] *)
Definition newKubeConfigFromConfig (config : C) : Task KubeConfigSource :=
  clusterToken ← liftResult (getOptionalString config "serviceAccountToken");
  match truthyString clusterToken with
  | Some clusterToken =>
    logInfo "Loading kubernetes config from config file";;
    name ← liftResult (getString config "name");
    server ← liftResult (getString config "url");
    skipTLSVerify ← liftResult (getOptionalBoolean config "skipTLSVerify");
    caData ← liftResult (getOptionalString config "caData");
    let cluster := {| kc_name := name;
                      kc_server := server;
                      kc_caData := caData;
                      kc_skipTLSVerify := default false skipTLSVerify |} in
    let user := {| ku_name := "backstage"; ku_token := clusterToken |} in
    let context := {| kx_name := kc_name cluster;
                      kx_user := ku_name user;
                      kx_cluster := kc_name cluster |} in
    mret (LoadFromOptions
            {| opt_clusters := [cluster];
               opt_users := [user];
               opt_contexts := [context];
               opt_currentContext := kx_name context |})
  | None =>
    logInfo "Using default kubernetes config";;
    mret LoadFromDefault
  end.

(** The earlier form of the same helper, which returns the API client. *)
Definition getCustomObjectsApi (clusterConfig : C) : Task CustomObjectsApi :=
  clusterToken ← liftResult (getOptionalString clusterConfig "serviceAccountToken");
  match truthyString clusterToken with
  | Some clusterToken =>
    logInfo "Loading kubernetes config from config file";;
    name ← liftResult (getString clusterConfig "name");
    server ← liftResult (getString clusterConfig "url");
    skipTLSVerify ← liftResult (getOptionalBoolean clusterConfig "skipTLSVerify");
    caData ← liftResult (getOptionalString clusterConfig "caData");
    let cluster := {| kc_name := name;
                      kc_server := server;
                      kc_caData := caData;
                      kc_skipTLSVerify := default false skipTLSVerify |} in
    let user := {| ku_name := "backstage"; ku_token := clusterToken |} in
    let context := {| kx_name := kc_name cluster;
                      kx_user := ku_name user;
                      kx_cluster := kc_name cluster |} in
    mret (makeApiClient
            (LoadFromOptions
               {| opt_clusters := [cluster];
                  opt_users := [user];
                  opt_contexts := [context];
                  opt_currentContext := kx_name context |}))
  | None =>
    logInfo "Using default kubernetes config";;
    mret (makeApiClient LoadFromDefault)
  end.

Definition clusterApiClient (hubClusterName : string) (config : C)
    : Task CustomObjectsApi :=
  clusterConfig ← liftResult (getCAPIClusterFromKubernetesConfig hubClusterName config);
  getCustomObjectsApi clusterConfig.

End HubClient.

(** ** Creating providers ([CAPIClusterProvider.fromConfig], the variant
    without kubeconfig lookup) *)

(** [ProviderOptions] without the logger, which is the trace. *)
Record ProviderOptions (TaskRunner Scheduler : Type) : Type := {
  po_schedule : option TaskRunner;
  po_scheduler : option Scheduler;
}.

Arguments po_schedule {TaskRunner Scheduler} _.
Arguments po_scheduler {TaskRunner Scheduler} _.

Module BasicFactory.

Section FromConfig.
Context {C : Type} `{ConfigLists C} {Schedule TaskRunner Scheduler : Type}.
Variable readTaskScheduleDefinitionFromConfig : C -> Result Schedule.
Variable makeApiClient : KubeConfigSource -> CustomObjectsApi.

(** [scheduler.createScheduledTaskRunner(schedule)]; the argument is
    whatever [providerConfig.schedule] holds. *)
Variable createScheduledTaskRunner : Scheduler -> option Schedule -> TaskRunner.

(** [options.schedule ?? options.scheduler!.createScheduledTaskRunner(
    providerConfig.schedule!)] *)
Definition taskRunnerFor (options : ProviderOptions TaskRunner Scheduler)
    (providerConfig : ProviderConfig Schedule) : Result TaskRunner :=
  match po_schedule options with
  | Some runner => Ok runner
  | None =>
      match po_scheduler options with
      | Some scheduler =>
          Ok (createScheduledTaskRunner scheduler (cfg_schedule providerConfig))
      | None =>
          Throw (TypeError
                   "Cannot read properties of undefined (reading 'createScheduledTaskRunner')")
      end
  end.

(** The callback of [providerConfigs.map]; the provider comes with the task
    runner its constructor keeps for [connect]. *)
Definition newProvider (rootConfig : C) (options : ProviderOptions TaskRunner Scheduler)
    (providerConfig : ProviderConfig Schedule)
    : Task (Basic.CAPIClusterProvider Schedule * TaskRunner) :=
  match po_schedule options, cfg_schedule providerConfig with
  | None, None =>
      throw (Error ("No schedule provided neither via code nor config for "
                    ++ "CAPIClusterProvider:" ++ cfg_id providerConfig ++ "."))
  | _, _ =>
      taskRunner ← liftResult (taskRunnerFor options providerConfig);
      client ← clusterApiClient makeApiClient
                 (cfg_hubClusterName providerConfig) rootConfig;
      mret ({| Basic.client := client;
               Basic.config := providerConfig;
               Basic.connection := None |}, taskRunner)
  end.

Definition fromConfig (rootConfig : C) (options : ProviderOptions TaskRunner Scheduler)
    : Task (list (Basic.CAPIClusterProvider Schedule * TaskRunner)) :=
  providerConfigs ←
    liftResult (readProviderConfigs readTaskScheduleDefinitionFromConfig rootConfig);
  match po_schedule options, po_scheduler options with
  | None, None => throw (Error "Either schedule or scheduler must be provided.")
  | _, _ => mapT (newProvider rootConfig options) providerConfigs
  end.

End FromConfig.

End BasicFactory.

(** ** Listing the kubeconfig secrets of a namespace ([helpers/secret.ts]) *)

(** The list call of the core API client: the [items] of the answer. *)
Record SecretListApi : Type := {
  listNamespacedSecret : string -> Result (list V1Secret);
}.

(** [(secret.type ?? '') === CAPI_CLUSTER_SECRET_TYPE] *)
Definition isClusterSecret (secret : V1Secret) : bool :=
  String.eqb (default "" (secret_type secret)) CAPI_CLUSTER_SECRET_TYPE.

(** [secret.metadata?.name ?? 'unknown'] *)
Definition secretKey (secret : V1Secret) : string :=
  default "unknown" (secret_name secret).

(** The trace of [getClusterKubeConfigs] holds its log lines. *)
Definition getClusterKubeConfigs (lib : KubeConfigLibrary) (client : SecretListApi)
    (namespace : string) : Task (gmap string KubeConfig) :=
  items ← liftResult (listNamespacedSecret client namespace);
  let secrets := List.filter isClusterSecret items in
  entries ←
    mapT (fun secret =>
            decoded ← decodeKubeConfigFromSecret lib secret;
            mret (secretKey secret, decoded))
         secrets;
  mret (objectOf entries).

(** ** The status endpoint ([router/router.ts]) *)

Module Router.

(** [cluster.status] as the endpoint reads it: every field may be missing. *)
Record StatusFields : Type := {
  sf_phase : option string;
  sf_controlPlaneReady : option bool;
  sf_infrastructureReady : option bool;
}.

Record Cluster : Type := {
  metadata : option ObjectMeta;
  status : option StatusFields;
}.

Record ClusterStatus : Type := {
  name : string;
  namespace : string;
  cluster : string;
  phase : option string;
  controlPlaneReady : bool;
  infrastructureReady : bool;
}.

Definition parseClusterStatus (sourceCluster : string) (cluster : Cluster)
    : ClusterStatus :=
  {| name := default "" (match metadata cluster with
                         | Some md => meta_name md
                         | None => None
                         end);
     namespace := default "" (match metadata cluster with
                              | Some md => meta_namespace md
                              | None => None
                              end);
     cluster := sourceCluster;
     phase := match status cluster with
              | Some st => sf_phase st
              | None => None
              end;
     controlPlaneReady :=
       default false (match status cluster with
                      | Some st => sf_controlPlaneReady st
                      | None => None
                      end);
     infrastructureReady :=
       default false (match status cluster with
                      | Some st => sf_infrastructureReady st
                      | None => None
                      end) |}.

(** The body sent by [GET /status], given the answer of the list call; a
    failed list call rejects the handler's promise. *)
Definition statusBody (sourceClusterName : string) (listing : Result (list Cluster))
    : Result (list ClusterStatus) :=
  items ← listing;
  Ok (map (parseClusterStatus sourceClusterName) items).

End Router.

(** ** Observing traces and strings *)

(** The secret reads of a trace, as (name, namespace), in order. *)
Fixpoint secretReads (events : list Event) : list (string * string) :=
  match events with
  | [] => []
  | EvReadNamespacedSecret name namespace :: rest => (name, namespace) :: secretReads rest
  | _ :: rest => secretReads rest
  end.

(** The number of list calls in a trace. *)
Fixpoint listCalls (events : list Event) : nat :=
  match events with
  | [] => 0
  | EvListClusterCustomObject _ _ _ :: rest => S (listCalls rest)
  | _ :: rest => listCalls rest
  end.

(** The error log lines of a trace. *)
Fixpoint errorLogs (events : list Event) : list (string * option Exn) :=
  match events with
  | [] => []
  | EvLog LError message err :: rest => (message, err) :: errorLogs rest
  | _ :: rest => errorLogs rest
  end.

Fixpoint occurrences (c : ascii) (s : string) : nat :=
  match s with
  | EmptyString => 0
  | String c' rest => (if Ascii.eqb c' c then 1 else 0) + occurrences c rest
  end.

(** [pieces.join(sep)] *)
Fixpoint join (sep : ascii) (pieces : list string) : string :=
  match pieces with
  | [] => EmptyString
  | [piece] => piece
  | piece :: rest => piece ++ String sep (join sep rest)
  end.

Definition startsWithWhiteSpace (s : string) : bool :=
  match s with
  | String c _ => isWhiteSpace c
  | EmptyString => false
  end.

Fixpoint endsWithWhiteSpace (s : string) : bool :=
  match s with
  | EmptyString => false
  | String c EmptyString => isWhiteSpace c
  | String _ rest => endsWithWhiteSpace rest
  end.

(** ** Fixtures

    The hub, catalog connection and client library used to run the providers
    on concrete inputs, after the module's own tests. *)

(** A client library for the fixtures.  The secret payload stands for its
    own base64 decoding; one document loads into a kubeconfig with a single
    cluster entry, and every other text makes [loadFromString] throw before
    it has stored anything in the fresh [KubeConfig]. *)
Definition kindKubeconfigText : string := "apiVersion: v1 clusters: kind-kind".

Definition fixtureLibrary : KubeConfigLibrary :=
  {| decodeBase64 := fun str => str;
     loadFromString := fun text =>
       if String.eqb text kindKubeconfigText
       then Loaded {| clusters :=
                        [{| kc_name := "kind-kind";
                            kc_server := "https://172.18.0.2:6443";
                            kc_caData := Some "LS0tLS1CRUdJTg==";
                            kc_skipTLSVerify := false |}] |}
       else LoadFailed
              (TypeError "Cannot read properties of undefined (reading 'clusters')")
              {| clusters := [] |} |}.

Definition acceptingConnection : EntityProviderConnection :=
  {| applyMutationResult := fun _ => Ok tt |}.

Definition awsRef (kind name : string) : ObjectReference :=
  {| ref_kind := Some kind; ref_namespace := None; ref_name := Some name |}.

(** The cluster of the test "creates clusters". *)
Definition testCluster (name : string) (annotations : option (gmap string string)) : Cluster :=
  {| cluster_metadata :=
       Some {| meta_name := Some name;
               meta_namespace := Some "clusters";
               meta_annotations := annotations |};
     cluster_spec :=
       {| spec_paused := false;
          spec_controlPlaneRef := Some (awsRef "AWSManagedControlPlane" "test-cluster-control-plane");
          spec_infrastructureRef := Some (awsRef "AWSManagedCluster" "test-cluster") |};
     cluster_status :=
       Some {| status_phase := Some "provisioning";
               status_infrastructureReady := false;
               status_controlPlaneReady := false |} |}.

Definition cluster1 : Cluster :=
  testCluster "cluster1" (Some {[ ANNOTATION_CAPI_CLUSTER_LIFECYCLE := "production" ]}).

(** A cluster that carries nothing but its name. *)
Definition bareCluster : Cluster :=
  {| cluster_metadata :=
       Some {| meta_name := Some "bare"; meta_namespace := None; meta_annotations := None |};
     cluster_spec :=
       {| spec_paused := false; spec_controlPlaneRef := None; spec_infrastructureRef := None |};
     cluster_status := None |}.

Definition hubListing (items : Result (list Cluster)) : CustomObjectsApi :=
  {| listClusterCustomObject := fun _ _ _ => items |}.

Definition notFound : Exn := Error "HTTP request failed".

(** A hub on which no kubeconfig secret can be read. *)
Definition noSecrets : CoreV1Api :=
  {| readNamespacedSecret := fun _ _ => Throw notFound |}.

(** A hub on which every kubeconfig secret holds [payload]. *)
Definition secretsHolding (payload : option string) : CoreV1Api :=
  {| readNamespacedSecret := fun name namespace =>
       Ok {| secret_name := Some name;
             secret_type := Some CAPI_CLUSTER_SECRET_TYPE;
             secret_data :=
               match payload with
               | Some text => Some {[ "value" := text ]}
               | None => None
               end |} |}.

Definition testConfig (defaults : option ProviderDefaults) : ProviderConfig unit :=
  {| cfg_id := "default";
     cfg_hubClusterName := "cluster1";
     cfg_schedule := Some tt;
     cfg_defaults := defaults |}.

Definition testTeamDefaults : ProviderDefaults :=
  {| def_clusterOwner := Some "group:test-team";
     def_system := None; def_lifecycle := None; def_tags := None |}.

Definition testProvider (items : Result (list Cluster)) (secrets : CoreV1Api)
    (defaults : option ProviderDefaults) : WithKubeConfig.CAPIClusterProvider unit :=
  {| WithKubeConfig.customObjectsClient := hubListing items;
     WithKubeConfig.client := secrets;
     WithKubeConfig.config := testConfig defaults;
     WithKubeConfig.connection := Some acceptingConnection |}.

Definition basicProvider (items : Result (list Cluster))
    (defaults : option ProviderDefaults) : Basic.CAPIClusterProvider unit :=
  {| Basic.client := hubListing items;
     Basic.config := testConfig defaults;
     Basic.connection := Some acceptingConnection |}.

(** A cluster whose tags annotation needs trimming, and defaults with other
    tags. *)
Definition taggedCluster : Cluster :=
  testCluster "cluster1" (Some {[ ANNOTATION_CAPI_CLUSTER_TAGS := "tag1, tag2,tag3" ]}).

Definition otherTagsDefaults : ProviderDefaults :=
  {| def_clusterOwner := None; def_system := None; def_lifecycle := None;
     def_tags := Some ["imported"; "capi"] |}.

(** A cluster whose infrastructure reference names no kind. *)
Definition kindlessCluster : Cluster :=
  {| cluster_metadata :=
       Some {| meta_name := Some "kindless"; meta_namespace := Some "clusters";
               meta_annotations := None |};
     cluster_spec :=
       {| spec_paused := false; spec_controlPlaneRef := None;
          spec_infrastructureRef :=
            Some {| ref_kind := None; ref_namespace := None;
                    ref_name := Some "test-cluster" |} |};
     cluster_status := None |}.

(** A cluster whose owner, lifecycle and system annotations are empty. *)
Definition emptyFieldsCluster : Cluster :=
  testCluster "cluster1"
    (Some (<[ ANNOTATION_CAPI_CLUSTER_OWNER := "" ]>
             (<[ ANNOTATION_CAPI_CLUSTER_LIFECYCLE := "" ]>
                {[ ANNOTATION_CAPI_CLUSTER_SYSTEM := "" ]}))).

Definition stagingDefaults : ProviderDefaults :=
  {| def_clusterOwner := Some "group:test-team";
     def_system := Some "test-system";
     def_lifecycle := Some "staging";
     def_tags := None |}.

(** Two clusters named [cluster1] in one listing. *)
Definition cluster1Again : Cluster := testCluster "cluster1" None.

(** *** Fixtures for the cluster locator and the factory *)

Definition asConfigs (key : string) (items : list JsonValue) : Result (list ConfigReader) :=
  mapR (fun v => match v with
                 | JObj fields => Ok {| cr_data := fields |}
                 | _ => wrongType key "object-array"
                 end) items.

#[global] Instance ConfigReader_ConfigLists : ConfigLists ConfigReader := {|
  getConfigArray c key :=
    v ← readValue c key;
    match v with
    | Some (JArr items) => asConfigs key items
    | Some _ => wrongType key "object-array"
    | None => missing key
    end;
  getOptionalConfigArray c key :=
    v ← readValue c key;
    match v with
    | Some (JArr items) => configs ← asConfigs key items; Ok (Some configs)
    | Some _ => wrongType key "object-array"
    | None => Ok None
    end;
  getOptionalBoolean c key :=
    v ← readValue c key;
    match v with
    | Some (JBool b) => Ok (Some b)
    | Some _ => wrongType key "boolean"
    | None => Ok None
    end;
|}.

(** The cluster locator of the tests: hub [cluster1] with a token. *)
Definition locatorFields : list (string * JsonValue) :=
  [("kubernetes", JObj [("clusterLocatorMethods", JArr
      [JObj [("type", JStr "config")];
       JObj [("type", JStr "config");
             ("clusters", JArr
                [JObj [("name", JStr "cluster0")];
                 JObj [("name", JStr "cluster1");
                       ("serviceAccountToken", JStr "TOKEN");
                       ("url", JStr "http://cluster.example.com");
                       ("caData", JStr "TESTING-CA")]])]])])].

Definition providerFields (provider : list (string * JsonValue)) : list (string * JsonValue) :=
  [("catalog", JObj [("providers", JObj [("capi", JObj provider)])])].

Definition scheduleBlock : JsonValue :=
  JObj [("frequency", JObj [("hours", JNum 1)]);
        ("timeout", JObj [("minutes", JNum 50)])].

(** Locator plus one provider, with and without a schedule of its own. *)
Definition scheduledRoot : ConfigReader :=
  {| cr_data := locatorFields
       ++ providerFields [("hubClusterName", JStr "cluster1");
                          ("schedule", scheduleBlock)] |}.

Definition unscheduledRoot : ConfigReader :=
  {| cr_data := locatorFields
       ++ providerFields [("hubClusterName", JStr "cluster1")] |}.

(** A provider that names a hub the locator does not list. *)
Definition unknownHubRoot : ConfigReader :=
  {| cr_data := locatorFields
       ++ providerFields [("hubClusterName", JStr "cluster9");
                          ("schedule", scheduleBlock)] |}.

(** Task runners are named after where they come from. *)
Definition runnerOf (scheduler : string) (schedule : option (list (string * JsonValue)))
    : string :=
  scheduler ++ match schedule with
               | Some _ => ":scheduled"
               | None => ":unscheduled"
               end.

(** Every kubeconfig reaches a hub without clusters. *)
Definition emptyHub (source : KubeConfigSource) : CustomObjectsApi := hubListing (Ok []).



Definition clusterSecret (name : string) (type : option string) (payload : string)
    : V1Secret :=
  {| secret_name := Some name;
     secret_type := type;
     secret_data := Some {[ "value" := payload ]} |}.

Definition secretListing (items : Result (list V1Secret)) : SecretListApi :=
  {| listNamespacedSecret := fun _ => items |}.

(** Two providers, the second without a hub cluster name. *)
Definition brokenChildDoc : ConfigReader :=
  {| cr_data :=
       providerFields
         [("eu", JObj [("hubClusterName", JStr "eu-cluster")]);
          ("us", JObj [("defaults", JObj [("clusterOwner", JStr "group:us")])])] |}.

(** The provider of the README with defaults and a schedule. *)
Definition readmeProviderNode : ConfigReader :=
  {| cr_data :=
       [("hubClusterName", JStr "production-cluster");
        ("schedule", scheduleBlock);
        ("defaults", JObj [("clusterOwner", JStr "group:cluster-admins");
                           ("tags", JArr [JStr "imported"; JStr "capi"])])] |}.

(** ** Vocabulary of the statements *)

(** A kubeconfig the mapper can read: none at all, or one with a first
    cluster entry. *)
Definition usable (clusterKubeConfig : option KubeConfig) : Prop :=
  match clusterKubeConfig with
  | Some kc => clusters kc <> []
  | None => True
  end.

(** The [KubeConfig] that [decodeKubeConfigFromSecret] returns for a
    secret, loaded or not. *)
Definition loadedKubeConfig (lib : KubeConfigLibrary) (secret : V1Secret) : KubeConfig :=
  match loadFromString lib (decodeBase64 lib (secretValue secret)) with
  | Loaded kc => kc
  | LoadFailed _ kc => kc
  end.

Section Vocabulary.
Import WithKubeConfig.
Context {Schedule : Type}.
Variable lib : KubeConfigLibrary.
Variable this : CAPIClusterProvider Schedule.

(** The object literal of [toResource], given the two values read from the
    kubeconfig. *)
Definition resourceLiteral (server caData : option string) (cluster : Cluster)
    : ResourceEntity :=
  let a := clusterAnnotations cluster in
  {| ent_kind := "Resource";
     ent_apiVersion := "backstage.io/v1beta1";
     ent_metadata :=
       {| em_name := nameOf cluster;
          em_title := nameOf cluster;
          em_description := ann_description a;
          em_annotations :=
            objectOf
              [(ANNOTATION_LOCATION, Some (getProviderName this));
               (ANNOTATION_ORIGIN_LOCATION, Some (getProviderName this));
               (ANNOTATION_CAPI_PROVIDER, Some (capiClusterProvider cluster));
               (ANNOTATION_KUBERNETES_API_SERVER, server);
               (ANNOTATION_KUBERNETES_API_SERVER_CA, caData);
               (ANNOTATION_KUBERNETES_AUTH_PROVIDER, Some "oidc")];
          em_tags := jsOrArray (ann_tags a) (defaultOf (config this) def_tags) |};
     ent_spec :=
       {| es_owner :=
            jsOrElse (jsOr (ann_owner a) (defaultOf (config this) def_clusterOwner))
                     "guest";
          es_type := "kubernetes-cluster";
          es_lifecycle := jsOr (ann_lifecycle a) (defaultOf (config this) def_lifecycle);
          es_system := jsOr (ann_system a) (defaultOf (config this) def_system) |} |}.

(** The kubeconfig the lookup for [cluster] settles with. *)
Definition resolved (cluster : Cluster) : option KubeConfig :=
  match readNamespacedSecret (client this)
          (tpl (nameOf cluster) ++ "-kubeconfig")
          (jsOrElse (namespaceOf cluster) "default") with
  | Ok secret =>
      match loadFromString lib (decodeBase64 lib (secretValue secret)) with
      | Loaded kc => Some kc
      | LoadFailed _ kc => Some kc
      end
  | Throw _ => None
  end.

Definition entriesOf (items : list Cluster) : list (string * option KubeConfig) :=
  map (fun cluster => (clusterName cluster, resolved cluster)) items.

Definition wrap (resource : ResourceEntity) : DeferredEntity :=
  {| entity := resource; locationKey := getProviderName this |}.

End Vocabulary.

(** * Properties *)

(** ** The embedding on small inputs *)

Example split_tags : map trim (split "," "tag1, tag2,tag3") = ["tag1"; "tag2"; "tag3"].
Proof. reflexivity. Qed.

Example split_empty : split "," "" = [""].
Proof. reflexivity. Qed.

Example trim_both : trim "  a b	 " = "a b".
Proof. reflexivity. Qed.

Example annotation_lookup :
  annotationOf
    {| cluster_metadata :=
         Some {| meta_name := Some "c"; meta_namespace := None;
                 meta_annotations :=
                   Some {[ ANNOTATION_CAPI_CLUSTER_OWNER := "team" ]} |};
       cluster_spec := {| spec_paused := false; spec_controlPlaneRef := None;
                          spec_infrastructureRef := None |};
       cluster_status := None |}
    ANNOTATION_CAPI_CLUSTER_OWNER = Some "team".
Proof. vm_compute. reflexivity. Qed.

Example readProviderConfigs_readme_multi :
  match readProviderConfigs scheduleOfConfig multiProviderDoc with
  | Ok ps => map cfg_id ps = ["default"; "cluster1"]
             ∧ map cfg_hubClusterName ps = ["default"; "eu-cluster"]
  | Throw _ => False
  end.
Proof. vm_compute. split; reflexivity. Qed.

(** ** Results, tasks and traces *)

Lemma mapR_ok_length {A B} (f : A -> Result B) xs ys :
  mapR f xs = Ok ys -> List.length ys = List.length xs.
Proof.
  revert ys. induction xs as [|x xs IH]; intros ys Hm; simpl in Hm.
  - by inversion Hm.
  - destruct (f x) as [y|e]; simpl in Hm; [|discriminate].
    destruct (mapR f xs) as [ys'|e]; simpl in Hm; [|discriminate].
    inversion Hm; subst. simpl. f_equal. by apply IH.
Qed.

(** [mapR] succeeds exactly when [f] succeeds on every element, and then
    pairs the elements with their images in order. *)
Lemma mapR_ok_Forall2 {A B} (f : A -> Result B) xs ys :
  mapR f xs = Ok ys <-> Forall2 (fun x y => f x = Ok y) xs ys.
Proof.
  revert ys. induction xs as [|x xs IH]; intros ys; simpl.
  - split.
    + intros Hm. inversion Hm. constructor.
    + intros HF. by inversion HF.
  - split.
    + intros Hm.
      destruct (f x) as [y|e] eqn:Hx; simpl in Hm; [|discriminate].
      destruct (mapR f xs) as [ys'|e] eqn:Hxs; simpl in Hm; [|discriminate].
      inversion Hm; subst. constructor; [done|]. by apply IH.
    + intros HF. inversion HF as [|? y ? ys' Hx Hrest]; subst.
      rewrite Hx. simpl. apply IH in Hrest. rewrite Hrest. done.
Qed.

Lemma mapR_throw_elem {A B} (f : A -> Result B) xs x e :
  x ∈ xs -> f x = Throw e -> exists e', mapR f xs = Throw e'
    /\ exists x', x' ∈ xs /\ f x' = Throw e'.
Proof.
  intros Hin Hx. induction xs as [|a xs IH]; [by apply elem_of_nil in Hin|].
  simpl. destruct (f a) as [y|ea] eqn:Ha; simpl.
  - apply elem_of_cons in Hin as [->|Hin]; [congruence|].
    destruct (IH Hin) as (e' & Hm & x' & Hx' & Hfx').
    exists e'. rewrite Hm. simpl. split; [done|].
    exists x'. split; [by right | done].
  - exists ea. split; [done|]. exists a. split; [by left | done].
Qed.

Lemma mapR_pure {A B} (f : A -> Result B) (g : A -> B) xs :
  (forall x, x ∈ xs -> f x = Ok (g x)) -> mapR f xs = Ok (map g xs).
Proof.
  intros Hf. apply mapR_ok_Forall2. induction xs as [|x xs IH]; simpl; constructor.
  - apply Hf. by left.
  - apply IH. intros x' Hx'. apply Hf. by right.
Qed.

Lemma tryCatch_throw {A} (body : Task A) (handler : Exn -> Task A) e :
  outcome body = Throw e ->
  tryCatch body handler =
    mkTask (trace body ++ trace (handler e)) (outcome (handler e)).
Proof. intros Hb. unfold tryCatch. by rewrite Hb. Qed.

Lemma appliedMutations_app t1 t2 :
  appliedMutations (t1 ++ t2) = appliedMutations t1 ++ appliedMutations t2.
Proof.
  induction t1 as [|ev t1 IH]; [done|].
  destruct ev; simpl; by rewrite ?IH.
Qed.

Lemma trace_bind {A B} (m : Task A) (f : A -> Task B) a :
  outcome m = Ok a ->
  trace (m ≫= f) = trace m ++ trace (f a) /\ outcome (m ≫= f) = outcome (f a).
Proof. intros Hm. unfold mbind, Task_bind. by rewrite Hm. Qed.

Lemma bind_ok {A B} (m : Task A) (f : A -> Task B) a :
  outcome m = Ok a ->
  m ≫= f = mkTask (trace m ++ trace (f a)) (outcome (f a)).
Proof. intros Hm. unfold mbind, Task_bind. by rewrite Hm. Qed.

Lemma bind_throw {A B} (m : Task A) (f : A -> Task B) e :
  outcome m = Throw e -> m ≫= f = mkTask (trace m) (Throw e).
Proof. intros Hm. unfold mbind, Task_bind. by rewrite Hm. Qed.

(** Tasks that all resolve and leave the catalog alone do so together. *)
Lemma mapT_settles {A B} (f : A -> Task B) (g : A -> B) xs :
  (forall x, outcome (f x) = Ok (g x) /\ appliedMutations (trace (f x)) = []) ->
  outcome (mapT f xs) = Ok (map g xs)
  /\ appliedMutations (trace (mapT f xs)) = [].
Proof.
  intros Hf. induction xs as [|x xs [IHo IHt]]; [done|].
  destruct (Hf x) as [Ho Ht].
  change (mapT f (x :: xs))
    with (f x ≫= (fun y => mapT f xs ≫= (fun ys => mret (y :: ys)))).
  destruct (trace_bind (f x)
              (fun y => mapT f xs ≫= (fun ys => mret (y :: ys))) _ Ho) as [-> ->].
  destruct (trace_bind (mapT f xs) (fun ys => mret (g x :: ys)) _ IHo) as [-> ->].
  split; [done|].
  rewrite !appliedMutations_app, Ht, IHt. done.
Qed.

(** ** Reading the provider configuration *)

Section ReadProviderConfigsFacts.
Context {C : Type} `{Config C} {Schedule : Type}.
Variable readSchedule : C -> Result Schedule.

(** A provider configuration carries the id it was read under. *)
Lemma readProviderConfig_id id config p :
  readProviderConfig readSchedule id config = Ok p -> cfg_id p = id.
Proof.
  unfold readProviderConfig. intros Hr.
  destruct (getString config "hubClusterName"); simpl in Hr; [|discriminate].
  destruct (if has config "schedule" then _ else _); simpl in Hr; [|discriminate].
  destruct (getOptionalConfig config "defaults"); simpl in Hr; [|discriminate].
  destruct (parseDefaults _); simpl in Hr; [|discriminate].
  by inversion Hr.
Qed.

Lemma readChild_id node name p : readChild readSchedule node name = Ok p -> cfg_id p = name.
Proof.
  unfold readChild. destruct (getConfig node name); simpl; [|discriminate].
  apply readProviderConfig_id.
Qed.

Lemma Forall2_readChild_ids node names ps :
  Forall2 (fun name p => readChild readSchedule node name = Ok p) names ps ->
  map cfg_id ps = names.
Proof.
  induction 1 as [|name p names ps Hp _ IH]; simpl; [done|].
  f_equal; [by eapply readChild_id | done].
Qed.

End ReadProviderConfigsFacts.

(** C3.  [readProviderConfigs] has three cases, decided by the
    [catalog.providers.capi] node.  When the node is absent the result is
    the empty list, without an error.  When the node itself has a
    [hubClusterName] field, a result is returned exactly when the node
    parses as one provider, and it is that provider alone, with id
    ["default"].  Otherwise a result is returned exactly when every child
    key parses by the same per-provider reader, and it holds one provider
    per child key, in key order, each with its key as id. *)
Theorem readProviderConfigs_cases {C : Type} `{Config C} {Schedule : Type}
    (readSchedule : C -> Result Schedule) (root : C) :
  (getOptionalConfig root "catalog.providers.capi" = Ok None ->
   readProviderConfigs readSchedule root = Ok [])
  /\ (forall node,
        getOptionalConfig root "catalog.providers.capi" = Ok (Some node) ->
        has node "hubClusterName" = true ->
        forall ps,
          readProviderConfigs readSchedule root = Ok ps <->
          exists p, ps = [p] /\ cfg_id p = "default"
                    /\ readProviderConfig readSchedule "default" node = Ok p)
  /\ (forall node,
        getOptionalConfig root "catalog.providers.capi" = Ok (Some node) ->
        has node "hubClusterName" = false ->
        forall ps,
          (readProviderConfigs readSchedule root = Ok ps <->
           Forall2
             (fun name p =>
                exists child, getConfig node name = Ok child
                  /\ readProviderConfig readSchedule name child = Ok p)
             (keys node) ps)
          /\ (readProviderConfigs readSchedule root = Ok ps ->
              map cfg_id ps = keys node
              /\ List.length ps = List.length (keys node))).
Proof.
  unfold readProviderConfigs, PROVIDERS_PATH, DEFAULT_PROVIDER_ID.
  split; [|split].
  - intros ->. reflexivity.
  - intros node -> Hhas ps. simpl. rewrite Hhas. split.
    + intros Hr.
      destruct (readProviderConfig readSchedule "default" node) as [p|e] eqn:Hp;
        simpl in Hr; [|discriminate].
      inversion Hr; subst. exists p. split; [done|]. split; [|done].
      by eapply readProviderConfig_id.
    + intros (p & -> & _ & Hp). by rewrite Hp.
  - intros node -> Hhas ps. simpl. rewrite Hhas.
    assert (Hiff :
      mapR (readChild readSchedule node) (keys node) = Ok ps <->
      Forall2 (fun name p => readChild readSchedule node name = Ok p) (keys node) ps)
      by apply mapR_ok_Forall2.
    assert (Hchild : forall name p,
      readChild readSchedule node name = Ok p <->
      exists child, getConfig node name = Ok child
        /\ readProviderConfig readSchedule name child = Ok p).
    { intros name p. unfold readChild.
      destruct (getConfig node name) as [child|e]; simpl.
      - split; [intros Hp; by exists child | by intros (child' & [= <-] & Hp)].
      - split; [discriminate | by intros (child' & [=] & _)]. }
    split; [|intros Hr; split].
    + rewrite Hiff. split; intros HF; eapply Forall2_impl; try exact HF;
        intros name p; apply Hchild.
    + apply Hiff in Hr. by eapply Forall2_readChild_ids.
    + by apply mapR_ok_length in Hr.
Qed.

(** The three cases on the configuration documents of the module's tests. *)
Lemma readProviderConfigs_cases_witness :
  readProviderConfigs scheduleOfConfig noProvidersDoc = Ok []
  /\ (exists p, readProviderConfigs scheduleOfConfig singleProviderDoc = Ok [p]
                /\ cfg_id p = "default")
  /\ (forall ps, readProviderConfigs scheduleOfConfig multiProviderDoc = Ok ps ->
                 map cfg_id ps = ["default"; "cluster1"]).
Proof.
  split; [|split].
  - apply (readProviderConfigs_cases scheduleOfConfig noProvidersDoc).
    reflexivity.
  - destruct (readProviderConfigs_cases scheduleOfConfig singleProviderDoc)
      as (_ & Hsingle & _).
    destruct (readProviderConfigs scheduleOfConfig singleProviderDoc) as [ps|e] eqn:Hr;
      [|vm_compute in Hr; discriminate].
    destruct (proj1 (Hsingle _ eq_refl eq_refl ps) eq_refl) as (p & -> & Hid & _).
    by exists p.
  - intros ps Hr.
    destruct (readProviderConfigs_cases scheduleOfConfig multiProviderDoc)
      as (_ & _ & Hmulti).
    destruct (Hmulti _ eq_refl eq_refl ps) as (_ & Hids).
    destruct (Hids Hr) as (Hmap & _). exact Hmap.
Defined.

(** ** Objects and maps built from a list of entries *)

Lemma objectOf_snoc {V} (props : list (string * V)) k v :
  objectOf (props ++ [(k, v)]) = <[k := v]> (objectOf props).
Proof. unfold objectOf. by rewrite foldl_app. Qed.

(** A key found in the object was put there by one of the entries. *)
Lemma objectOf_lookup_Some {V} (props : list (string * V)) k v :
  objectOf props !! k = Some v -> (k, v) ∈ props.
Proof.
  induction props as [|[k' v'] props IH] using rev_ind.
  - unfold objectOf. simpl. by rewrite lookup_empty.
  - rewrite objectOf_snoc. destruct (decide (k' = k)) as [->|Hne].
    + rewrite lookup_insert_eq. intros [= ->]. apply elem_of_app. right. by left.
    + rewrite lookup_insert_ne by done. intros Hl. apply elem_of_app. left. by apply IH.
Qed.

(** With distinct keys, every entry is found under its key. *)
Lemma objectOf_lookup_NoDup {V} (props : list (string * V)) k v :
  NoDup (props.*1) -> (k, v) ∈ props -> objectOf props !! k = Some v.
Proof.
  induction props as [|[k' v'] props IH] using rev_ind; intros Hnd Hin.
  - by apply elem_of_nil in Hin.
  - rewrite objectOf_snoc. rewrite fmap_app in Hnd. simpl in Hnd.
    apply NoDup_app in Hnd as (Hnd & Hfresh & _).
    apply elem_of_app in Hin as [Hin|Hin].
    + assert (k ≠ k') as Hne.
      { intros ->. apply (Hfresh k'); [|by left].
        apply list_elem_of_fmap. by exists (k', v). }
      rewrite lookup_insert_ne by done. by apply IH.
    + apply list_elem_of_singleton in Hin as [= -> ->]. by rewrite lookup_insert_eq.
Qed.

(** ** The entity mapper of the provider with kubeconfig lookup *)

Section MapperFacts.
Import WithKubeConfig.
Context {Schedule : Type}.
Variable this : CAPIClusterProvider Schedule.

Lemma toResource_absent kubeConfigs cluster :
  mapGet kubeConfigs (clusterName cluster) = None ->
  toResource this kubeConfigs cluster = Ok (resourceLiteral this None None cluster).
Proof. intros Hget. unfold toResource. rewrite Hget. reflexivity. Qed.

Lemma toResource_present kubeConfigs cluster kc first rest :
  mapGet kubeConfigs (clusterName cluster) = Some kc ->
  clusters kc = first :: rest ->
  toResource this kubeConfigs cluster =
    Ok (setAnnotation ANNOTATION_KUBERNETES_AUTH_PROVIDER (Some "oidc")
          (setAnnotation ANNOTATION_KUBERNETES_API_SERVER_CA (kc_caData first)
             (setAnnotation ANNOTATION_KUBERNETES_API_SERVER (Some (kc_server first))
                (resourceLiteral this (Some (kc_server first)) (kc_caData first) cluster)))).
Proof.
  intros Hget Hfirst. unfold toResource. rewrite Hget.
  unfold firstClusterProp. rewrite Hfirst. reflexivity.
Qed.

Lemma toResource_unloaded kubeConfigs cluster kc :
  mapGet kubeConfigs (clusterName cluster) = Some kc ->
  clusters kc = [] ->
  toResource this kubeConfigs cluster =
    Throw (TypeError "Cannot read properties of undefined (reading 'server')").
Proof.
  intros Hget Hnone. unfold toResource. rewrite Hget.
  unfold firstClusterProp. rewrite Hnone. reflexivity.
Qed.

(** The mapper throws nothing but the [TypeError] of the unguarded read. *)
Lemma toResource_throws_TypeError kubeConfigs cluster e :
  toResource this kubeConfigs cluster = Throw e -> exists msg, e = TypeError msg.
Proof.
  destruct (mapGet kubeConfigs (clusterName cluster)) as [kc|] eqn:Hget.
  - destruct (clusters kc) as [|first rest] eqn:Hfirst.
    + rewrite (toResource_unloaded _ _ _ Hget Hfirst). intros [= <-]. eauto.
    + by rewrite (toResource_present _ _ _ _ _ Hget Hfirst).
  - by rewrite (toResource_absent _ _ Hget).
Qed.

Lemma toResource_usable kubeConfigs cluster :
  usable (mapGet kubeConfigs (clusterName cluster)) ->
  exists resource, toResource this kubeConfigs cluster = Ok resource.
Proof.
  intros Hus. destruct (mapGet kubeConfigs (clusterName cluster)) as [kc|] eqn:Hget.
  - destruct (clusters kc) as [|first rest] eqn:Hfirst; [done|].
    rewrite (toResource_present _ _ _ _ _ Hget Hfirst). eauto.
  - rewrite (toResource_absent _ _ Hget). eauto.
Qed.

(** Everything of a mapped entity except the three API-server annotations
    is decided by the cluster and the provider configuration alone. *)
Lemma toResource_fields kubeConfigs cluster resource :
  toResource this kubeConfigs cluster = Ok resource ->
  ent_spec resource = ent_spec (resourceLiteral this None None cluster)
  /\ em_name (ent_metadata resource) = nameOf cluster
  /\ em_description (ent_metadata resource) = ann_description (clusterAnnotations cluster)
  /\ em_tags (ent_metadata resource) =
       jsOrArray (ann_tags (clusterAnnotations cluster)) (defaultOf (config this) def_tags)
  /\ em_annotations (ent_metadata resource) !! ANNOTATION_CAPI_PROVIDER =
       Some (Some (capiClusterProvider cluster))
  /\ em_annotations (ent_metadata resource) !! ANNOTATION_LOCATION =
       Some (Some (getProviderName this))
  /\ em_annotations (ent_metadata resource) !! ANNOTATION_ORIGIN_LOCATION =
       Some (Some (getProviderName this)).
Proof.
  destruct (mapGet kubeConfigs (clusterName cluster)) as [kc|] eqn:Hget.
  - destruct (clusters kc) as [|first rest] eqn:Hfirst.
    + by rewrite (toResource_unloaded _ _ _ Hget Hfirst).
    + rewrite (toResource_present _ _ _ _ _ Hget Hfirst). intros [= <-].
      repeat split; reflexivity.
  - rewrite (toResource_absent _ _ Hget). intros [= <-].
    repeat split; reflexivity.
Qed.

End MapperFacts.

(** ** One refresh cycle of the provider with kubeconfig lookup *)

Section RefreshFacts.
Import WithKubeConfig.
Context {Schedule : Type}.
Variable lib : KubeConfigLibrary.
Variable this : CAPIClusterProvider Schedule.

(** A lookup never rejects and never touches the catalog. *)
Lemma lookupKubeConfig_settles cluster :
  outcome (lookupKubeConfig lib this cluster) = Ok (clusterName cluster, resolved lib this cluster)
  /\ appliedMutations (trace (lookupKubeConfig lib this cluster)) = [].
Proof.
  unfold lookupKubeConfig, resolved, getClusterKubeConfig, decodeKubeConfigFromSecret.
  unfold tryCatch, mbind, Task_bind. simpl.
  destruct (readNamespacedSecret _ _ _) as [secret|e]; simpl; [|done].
  destruct (loadFromString _ _) as [kc|err kc]; simpl; done.
Qed.

Lemma lookups_settle items :
  outcome (mapT (lookupKubeConfig lib this) items) = Ok (entriesOf lib this items)
  /\ appliedMutations (trace (mapT (lookupKubeConfig lib this) items)) = [].
Proof. apply mapT_settles, lookupKubeConfig_settles. Qed.

(** A cycle of a connected provider whose list call succeeded: the catalog
    receives one full mutation when every cluster maps to an entity, and
    nothing when the mapper throws. *)
Lemma refresh_connected connection' items :
  connection this = Some connection' ->
  listClusterCustomObject (customObjectsClient this)
    "cluster.x-k8s.io" "v1beta1" "clusters" = Ok items ->
  match mapR (toResource this (objectOf (entriesOf lib this items))) items with
  | Ok resources =>
      appliedMutations (trace (refresh lib this)) = [FullMutation (map (wrap this) resources)]
      /\ outcome (refresh lib this) =
           applyMutationResult connection' (FullMutation (map (wrap this) resources))
  | Throw e =>
      appliedMutations (trace (refresh lib this)) = []
      /\ outcome (refresh lib this) = Throw e
  end.
Proof.
  intros Hconn Hlist. destruct (lookups_settle items) as [Ho Ht].
  unfold refresh. rewrite Hconn.
  rewrite (bind_ok (logInfo _) _ tt) by done.
  rewrite (bind_ok (getCAPIClusters _) _ items) by done.
  rewrite (bind_ok (mapT _ _) _ _ Ho).
  unfold liftResult at 1 2.
  destruct (mapR _ items) as [resources|e] eqn:Hmap.
  - rewrite (bind_ok (mkTask [] (Ok resources)) _ resources) by done.
    cbn [trace outcome]. rewrite !appliedMutations_app, Ht. done.
  - rewrite (bind_throw _ _ e) by done.
    cbn [trace outcome]. rewrite !appliedMutations_app, Ht. done.
Qed.

(** A cycle whose list call failed. *)
Lemma refresh_list_fails connection' e :
  connection this = Some connection' ->
  listClusterCustomObject (customObjectsClient this)
    "cluster.x-k8s.io" "v1beta1" "clusters" = Throw e ->
  refresh lib this =
    mkTask [EvLog LInfo ("Providing CAPI Cluster resources from cluster "
                         ++ cfg_hubClusterName (config this)) None;
            EvListClusterCustomObject "cluster.x-k8s.io" "v1beta1" "clusters"]
           (Throw e).
Proof.
  intros Hconn Hlist. unfold refresh. rewrite Hconn.
  rewrite (bind_ok (logInfo _) _ tt) by done.
  by rewrite (bind_throw (getCAPIClusters _) _ e).
Qed.

End RefreshFacts.

(** ** Credentials that are absent or unreadable *)

(** C1.  The claim that an entity mapped without credentials has none of
    the three API-server annotations does not hold of [refresh]: the object
    literal lists the three keys before the guarded assignments.  For a
    connected provider on a hub where no kubeconfig secret can be read, a
    cycle submits one full mutation with one entity per cluster, and every
    one of these entities has the auth-provider annotation set to ["oidc"]
    and the API-server URL and CA keys present, holding [undefined]. *)
Theorem refresh_without_secrets_keeps_api_annotations {Schedule : Type}
    (lib : KubeConfigLibrary) (this : WithKubeConfig.CAPIClusterProvider Schedule)
    (connection' : EntityProviderConnection) (items : list Cluster) :
  WithKubeConfig.connection this = Some connection' ->
  listClusterCustomObject (WithKubeConfig.customObjectsClient this)
    "cluster.x-k8s.io" "v1beta1" "clusters" = Ok items ->
  (forall name namespace,
     exists e, readNamespacedSecret (WithKubeConfig.client this) name namespace = Throw e) ->
  exists entities,
    appliedMutations (trace (WithKubeConfig.refresh lib this)) = [FullMutation entities]
    /\ List.length entities = List.length items
    /\ Forall
         (fun d =>
            let annotations := em_annotations (ent_metadata (entity d)) in
            annotations !! ANNOTATION_KUBERNETES_AUTH_PROVIDER = Some (Some "oidc")
            /\ annotations !! ANNOTATION_KUBERNETES_API_SERVER = Some None
            /\ annotations !! ANNOTATION_KUBERNETES_API_SERVER_CA = Some None)
         entities.
Proof.
  intros Hconn Hlist Hsecrets.
  pose proof (refresh_connected lib this connection' items Hconn Hlist) as Hrefresh.
  assert (Hnone : forall key,
    WithKubeConfig.mapGet (objectOf (entriesOf lib this items)) key = None).
  { intros key. unfold WithKubeConfig.mapGet.
    destruct (objectOf _ !! key) as [v|] eqn:Hlook; [|done].
    apply objectOf_lookup_Some in Hlook. unfold entriesOf in Hlook.
    apply list_elem_of_fmap in Hlook as (cluster & [= _ ->] & _).
    unfold resolved.
    by destruct (Hsecrets (tpl (nameOf cluster) ++ "-kubeconfig")%string
                   (jsOrElse (namespaceOf cluster) "default")) as [e ->]. }
  rewrite (mapR_pure _ (resourceLiteral this None None)) in Hrefresh
    by (intros cluster _; apply toResource_absent, Hnone).
  destruct Hrefresh as [Happlied _].
  eexists. split; [exact Happlied|]. split.
  - by rewrite !length_map.
  - apply Forall_forall. intros d Hd.
    apply list_elem_of_fmap in Hd as (resource & -> & Hresource).
    apply list_elem_of_fmap in Hresource as (cluster & -> & _).
    repeat split; reflexivity.
Qed.

(** The test "when the kubeconfig secret is not available": the entity of
    [cluster1] is submitted with the three API-server keys. *)
Lemma refresh_without_secrets_witness :
  exists entities,
    appliedMutations
      (trace (WithKubeConfig.refresh fixtureLibrary
                (testProvider (Ok [cluster1]) noSecrets (Some testTeamDefaults))))
      = [FullMutation entities]
    /\ List.length entities = 1%nat
    /\ Forall
         (fun d =>
            let annotations := em_annotations (ent_metadata (entity d)) in
            annotations !! ANNOTATION_KUBERNETES_AUTH_PROVIDER = Some (Some "oidc")
            /\ annotations !! ANNOTATION_KUBERNETES_API_SERVER = Some None
            /\ annotations !! ANNOTATION_KUBERNETES_API_SERVER_CA = Some None)
         entities.
Proof.
  apply (refresh_without_secrets_keeps_api_annotations fixtureLibrary
           (testProvider (Ok [cluster1]) noSecrets (Some testTeamDefaults))
           acceptingConnection [cluster1]).
  - reflexivity.
  - reflexivity.
  - intros name namespace. exists notFound. reflexivity.
Defined.

(** C2.  The claim that a kubeconfig payload that fails to decode is
    treated like a missing secret does not hold of [refresh]:
    [decodeKubeConfigFromSecret] logs the failure and returns the
    [KubeConfig] it could not load, and the mapper reads the first cluster
    of it unguarded.  For a connected provider and clusters with distinct
    names, if the secret of one cluster is read and its payload fails to
    load, leaving the kubeconfig without clusters, then the cycle throws a
    [TypeError] and nothing is submitted, by [refresh] or by the scheduled
    task around it. *)
Theorem refresh_decode_failure_aborts {Schedule : Type}
    (lib : KubeConfigLibrary) (this : WithKubeConfig.CAPIClusterProvider Schedule)
    (connection' : EntityProviderConnection) (items : list Cluster)
    (cluster : Cluster) (secret : V1Secret) (err : Exn) (kc : KubeConfig) :
  WithKubeConfig.connection this = Some connection' ->
  listClusterCustomObject (WithKubeConfig.customObjectsClient this)
    "cluster.x-k8s.io" "v1beta1" "clusters" = Ok items ->
  NoDup (map clusterName items) ->
  cluster ∈ items ->
  readNamespacedSecret (WithKubeConfig.client this)
    (tpl (nameOf cluster) ++ "-kubeconfig")
    (jsOrElse (namespaceOf cluster) "default") = Ok secret ->
  loadFromString lib (decodeBase64 lib (secretValue secret)) = LoadFailed err kc ->
  clusters kc = [] ->
  appliedMutations (trace (WithKubeConfig.refresh lib this)) = []
  /\ (exists msg, outcome (WithKubeConfig.refresh lib this) = Throw (TypeError msg))
  /\ appliedMutations
       (trace (task_fn (WithKubeConfig.createScheduleFn lib this))) = [].
Proof.
  intros Hconn Hlist Hnd Hin Hsecret Hload Hnone.
  pose proof (refresh_connected lib this connection' items Hconn Hlist) as Hrefresh.
  assert (Hget : WithKubeConfig.mapGet (objectOf (entriesOf lib this items))
                   (clusterName cluster) = Some kc).
  { unfold WithKubeConfig.mapGet.
    rewrite (objectOf_lookup_NoDup _ (clusterName cluster) (Some kc)); [done| |].
    - unfold entriesOf. rewrite <- list_fmap_compose. exact Hnd.
    - unfold entriesOf. apply list_elem_of_fmap. exists cluster. split; [|done].
      unfold resolved. by rewrite Hsecret, Hload. }
  destruct (mapR_throw_elem _ items cluster _ Hin
              (toResource_unloaded this _ _ _ Hget Hnone))
    as (e' & Hmap & cluster' & _ & Hthrow).
  rewrite Hmap in Hrefresh. destruct Hrefresh as [Happlied Hout].
  apply toResource_throws_TypeError in Hthrow as [msg ->].
  split; [done|]. split; [by exists msg|].
  unfold WithKubeConfig.createScheduleFn. cbn [task_fn].
  rewrite (tryCatch_throw _ _ _ Hout). cbn [trace].
  by rewrite appliedMutations_app, Happlied.
Qed.

(** A kubeconfig secret without a payload, on the cluster of the tests: the
    cycle is lost to the [TypeError]. *)
Lemma refresh_decode_failure_witness :
  appliedMutations
    (trace (WithKubeConfig.refresh fixtureLibrary
              (testProvider (Ok [cluster1]) (secretsHolding None) (Some testTeamDefaults))))
    = []
  /\ (exists msg,
        outcome (WithKubeConfig.refresh fixtureLibrary
                   (testProvider (Ok [cluster1]) (secretsHolding None)
                      (Some testTeamDefaults)))
        = Throw (TypeError msg))
  /\ appliedMutations
       (trace (task_fn (WithKubeConfig.createScheduleFn fixtureLibrary
                          (testProvider (Ok [cluster1]) (secretsHolding None)
                             (Some testTeamDefaults)))))
     = [].
Proof.
  eapply (refresh_decode_failure_aborts fixtureLibrary
            (testProvider (Ok [cluster1]) (secretsHolding None) (Some testTeamDefaults))
            acceptingConnection [cluster1] cluster1).
  - reflexivity.
  - reflexivity.
  - apply NoDup_singleton.
  - by left.
  - reflexivity.
  - reflexivity.
  - reflexivity.
Defined.

(** ** A cycle whose list call fails *)

(** C4.  When the list call of a cycle fails, [refresh] throws the error of
    the call without having called [applyMutation], and the scheduled task
    catches it: the task logs the failure under the provider's name,
    settles without an error and has not called [applyMutation] either. *)
Theorem list_failure_leaves_catalog_untouched {Schedule : Type}
    (lib : KubeConfigLibrary) (this : WithKubeConfig.CAPIClusterProvider Schedule)
    (connection' : EntityProviderConnection) (e : Exn) :
  WithKubeConfig.connection this = Some connection' ->
  listClusterCustomObject (WithKubeConfig.customObjectsClient this)
    "cluster.x-k8s.io" "v1beta1" "clusters" = Throw e ->
  let cycle := WithKubeConfig.refresh lib this in
  let tick := task_fn (WithKubeConfig.createScheduleFn lib this) in
  outcome cycle = Throw e
  /\ appliedMutations (trace cycle) = []
  /\ outcome tick = Ok tt
  /\ appliedMutations (trace tick) = []
  /\ trace tick =
       trace cycle
       ++ [EvLog LError (WithKubeConfig.getProviderName this ++ " refresh failed")
             (Some e)].
Proof.
  intros Hconn Hlist cycle tick. subst cycle tick.
  unfold WithKubeConfig.createScheduleFn. cbn [task_fn].
  rewrite (refresh_list_fails lib this connection' e Hconn Hlist).
  rewrite (tryCatch_throw _ _ e) by done.
  repeat split; reflexivity.
Qed.

Lemma list_failure_witness :
  let this := testProvider (Throw notFound) noSecrets (Some testTeamDefaults) in
  let cycle := WithKubeConfig.refresh fixtureLibrary this in
  let tick := task_fn (WithKubeConfig.createScheduleFn fixtureLibrary this) in
  outcome cycle = Throw notFound
  /\ appliedMutations (trace cycle) = []
  /\ outcome tick = Ok tt
  /\ appliedMutations (trace tick) = []
  /\ trace tick =
       trace cycle
       ++ [EvLog LError "CAPIClusterProvider:default refresh failed" (Some notFound)].
Proof.
  apply (list_failure_leaves_catalog_untouched fixtureLibrary
           (testProvider (Throw notFound) noSecrets (Some testTeamDefaults))
           acceptingConnection notFound); reflexivity.
Defined.

(** ** One refresh cycle of the provider without kubeconfig lookup *)

Lemma basic_refresh_connected {Schedule : Type}
    (this : Basic.CAPIClusterProvider Schedule) connection' items :
  Basic.connection this = Some connection' ->
  listClusterCustomObject (Basic.client this)
    "cluster.x-k8s.io" "v1beta1" "clusters" = Ok items ->
  appliedMutations (trace (Basic.refresh this)) =
    [FullMutation
       (map (fun resource =>
               {| entity := resource; locationKey := Basic.getProviderName this |})
            (map (Basic.toResource this) items))].
Proof.
  intros Hconn Hlist. unfold Basic.refresh. rewrite Hconn.
  rewrite (bind_ok (logInfo _) _ tt) by done.
  rewrite (bind_ok (getCAPIClusters _) _ items) by done.
  reflexivity.
Qed.

(** ** Field precedence *)

(** The owner chain [(annotation || fallback) || 'guest']. *)
Lemma owner_chain (annotation fallback : option string) :
  jsOrElse (jsOr annotation fallback) "guest" =
    if truthy annotation then default "" annotation
    else if truthy fallback then default "" fallback
    else "guest".
Proof.
  unfold jsOr, jsOrElse, truthy.
  destruct annotation as [a|]; [destruct (String.eqb a "") eqn:Ha|];
    simpl; rewrite ?Ha; try done;
    (destruct fallback as [f|]; [destruct (String.eqb f "") eqn:Hf|];
     simpl; rewrite ?Hf; done).
Qed.

(** C5.  A cluster without lifecycle, owner, description, system and tags
    annotations, mapped by a provider without defaults, becomes an entity
    whose owner is ["guest"] and whose lifecycle, system, tags and
    description are unset; this holds of the mapper of both provider
    variants.  For any cluster and any defaults the owner is the owner
    annotation when that is a non-empty string, else the default cluster
    owner when that is a non-empty string, else ["guest"]. *)
Theorem unannotated_cluster_without_defaults {Schedule : Type}
    (this : WithKubeConfig.CAPIClusterProvider Schedule)
    (basic : Basic.CAPIClusterProvider Schedule)
    (kubeConfigs : gmap string (option KubeConfig)) (cluster : Cluster) :
  usable (WithKubeConfig.mapGet kubeConfigs (clusterName cluster)) ->
  let unset resource :=
    es_lifecycle (ent_spec resource) = None
    /\ es_system (ent_spec resource) = None
    /\ em_tags (ent_metadata resource) = None
    /\ em_description (ent_metadata resource) = None in
  let owner defaults :=
    if truthy (annotationOf cluster ANNOTATION_CAPI_CLUSTER_OWNER)
    then default "" (annotationOf cluster ANNOTATION_CAPI_CLUSTER_OWNER)
    else if truthy defaults then default "" defaults
    else "guest" in
  exists resource,
    WithKubeConfig.toResource this kubeConfigs cluster = Ok resource
    /\ es_owner (ent_spec resource) =
         owner (defaultOf (WithKubeConfig.config this) def_clusterOwner)
    /\ es_owner (ent_spec (Basic.toResource basic cluster)) =
         owner (defaultOf (Basic.config basic) def_clusterOwner)
    /\ (annotationOf cluster ANNOTATION_CAPI_CLUSTER_LIFECYCLE = None ->
        annotationOf cluster ANNOTATION_CAPI_CLUSTER_OWNER = None ->
        annotationOf cluster ANNOTATION_CAPI_CLUSTER_DESCRIPTION = None ->
        annotationOf cluster ANNOTATION_CAPI_CLUSTER_SYSTEM = None ->
        annotationOf cluster ANNOTATION_CAPI_CLUSTER_TAGS = None ->
        (cfg_defaults (WithKubeConfig.config this) = None ->
         es_owner (ent_spec resource) = "guest" /\ unset resource)
        /\ (cfg_defaults (Basic.config basic) = None ->
            es_owner (ent_spec (Basic.toResource basic cluster)) = "guest"
            /\ unset (Basic.toResource basic cluster))).
Proof.
  intros Hus unset owner.
  destruct (toResource_usable this kubeConfigs cluster Hus) as [resource Hres].
  exists resource. split; [done|].
  destruct (toResource_fields this _ _ _ Hres) as (Hspec & _ & Hdesc & Htags & _).
  split; [|split].
  - rewrite Hspec. apply owner_chain.
  - apply owner_chain.
  - intros Hl Ho Hd Hs Ht. subst unset. cbv beta. split; intros Hnone.
    + rewrite Hspec, Hdesc, Htags. simpl. unfold defaultOf. rewrite Hnone.
      rewrite Hl, Ho, Hd, Hs, Ht. repeat split; reflexivity.
    + simpl. unfold defaultOf. rewrite Hnone.
      rewrite Hl, Ho, Hd, Hs, Ht. repeat split; reflexivity.
Qed.

Lemma unannotated_cluster_witness :
  exists resource,
    WithKubeConfig.toResource (testProvider (Ok [bareCluster]) noSecrets None)
      ∅ bareCluster = Ok resource
    /\ es_owner (ent_spec resource) = "guest"
    /\ es_lifecycle (ent_spec resource) = None
    /\ es_system (ent_spec resource) = None
    /\ em_tags (ent_metadata resource) = None
    /\ em_description (ent_metadata resource) = None
    /\ es_owner (ent_spec (Basic.toResource (basicProvider (Ok [bareCluster]) None)
                             bareCluster)) = "guest".
Proof.
  assert (Hus : usable (WithKubeConfig.mapGet ∅ (clusterName bareCluster)))
    by (vm_compute; exact I).
  destruct (unannotated_cluster_without_defaults
              (testProvider (Ok [bareCluster]) noSecrets None)
              (basicProvider (Ok [bareCluster]) None) ∅ bareCluster Hus)
    as (resource & Hres & _ & _ & Hbare).
  destruct (Hbare eq_refl eq_refl eq_refl eq_refl eq_refl)
    as [Hwith Hbasic].
  destruct (Hwith eq_refl) as (Howner & Hl & Hs & Ht & Hd).
  destruct (Hbasic eq_refl) as (Hbowner & _).
  exists resource. repeat split; assumption.
Defined.

(** C6.  The tags of a mapped entity are the pieces of the tags annotation,
    split at commas and trimmed, whatever tags the provider defaults hold;
    for the annotation ["tag1, tag2,tag3"] they are [tag1], [tag2] and
    [tag3]. *)
Theorem tags_annotation_split_and_trimmed {Schedule : Type}
    (this : WithKubeConfig.CAPIClusterProvider Schedule)
    (kubeConfigs : gmap string (option KubeConfig)) (cluster : Cluster)
    (value : string) :
  annotationOf cluster ANNOTATION_CAPI_CLUSTER_TAGS = Some value ->
  usable (WithKubeConfig.mapGet kubeConfigs (clusterName cluster)) ->
  exists resource,
    WithKubeConfig.toResource this kubeConfigs cluster = Ok resource
    /\ em_tags (ent_metadata resource) = Some (map trim (split "," value))
    /\ (value = "tag1, tag2,tag3" ->
        em_tags (ent_metadata resource) = Some ["tag1"; "tag2"; "tag3"]).
Proof.
  intros Hann Hus.
  destruct (toResource_usable this kubeConfigs cluster Hus) as [resource Hres].
  exists resource. split; [done|].
  destruct (toResource_fields this _ _ _ Hres) as (_ & _ & _ & Htags & _).
  assert (Hsplit : em_tags (ent_metadata resource) = Some (map trim (split "," value))).
  { rewrite Htags. simpl. by rewrite Hann. }
  split; [done|]. intros ->. rewrite Hsplit. reflexivity.
Qed.

Lemma tags_annotation_witness :
  exists resource,
    WithKubeConfig.toResource
      (testProvider (Ok [taggedCluster]) noSecrets (Some otherTagsDefaults))
      ∅ taggedCluster = Ok resource
    /\ em_tags (ent_metadata resource) = Some ["tag1"; "tag2"; "tag3"].
Proof.
  assert (Hus : usable (WithKubeConfig.mapGet ∅ (clusterName taggedCluster)))
    by (vm_compute; exact I).
  destruct (tags_annotation_split_and_trimmed
              (testProvider (Ok [taggedCluster]) noSecrets (Some otherTagsDefaults))
              ∅ taggedCluster "tag1, tag2,tag3" eq_refl Hus)
    as (resource & Hres & _ & Htags).
  exists resource. split; [exact Hres | exact (Htags eq_refl)].
Defined.

(** C9.  For a cluster without an infrastructure reference, or with one
    that has no kind, [capiClusterProvider] is the empty string, and so is
    the provider-kind annotation of the mapped entity.  The function is
    total: there is no input on which it throws. *)
Theorem provider_kind_absent_is_empty {Schedule : Type}
    (this : WithKubeConfig.CAPIClusterProvider Schedule)
    (kubeConfigs : gmap string (option KubeConfig)) (cluster : Cluster) :
  spec_infrastructureRef (cluster_spec cluster) = None
  \/ (exists reference,
        spec_infrastructureRef (cluster_spec cluster) = Some reference
        /\ ref_kind reference = None) ->
  capiClusterProvider cluster = ""
  /\ (usable (WithKubeConfig.mapGet kubeConfigs (clusterName cluster)) ->
      exists resource,
        WithKubeConfig.toResource this kubeConfigs cluster = Ok resource
        /\ em_annotations (ent_metadata resource) !! ANNOTATION_CAPI_PROVIDER
           = Some (Some "")).
Proof.
  intros Href.
  assert (Hkind : capiClusterProvider cluster = "").
  { unfold capiClusterProvider.
    destruct Href as [-> | (reference & -> & ->)]; reflexivity. }
  split; [done|]. intros Hus.
  destruct (toResource_usable this kubeConfigs cluster Hus) as [resource Hres].
  exists resource. split; [done|].
  destruct (toResource_fields this _ _ _ Hres) as (_ & _ & _ & _ & Hprov & _).
  by rewrite Hprov, Hkind.
Qed.

Lemma provider_kind_absent_witness :
  capiClusterProvider bareCluster = "" /\ capiClusterProvider kindlessCluster = "".
Proof.
  split.
  - apply (provider_kind_absent_is_empty
             (testProvider (Ok [bareCluster]) noSecrets None) ∅ bareCluster).
    left. reflexivity.
  - apply (provider_kind_absent_is_empty
             (testProvider (Ok [kindlessCluster]) noSecrets None) ∅ kindlessCluster).
    right. eexists. split; reflexivity.
Defined.

(** C10.  An owner, lifecycle or system annotation that is the empty string
    counts as absent: lifecycle and system are then the provider defaults
    (unset without one), and the owner is the default cluster owner when
    that is a non-empty string and ["guest"] otherwise.  A non-empty
    annotation, by contrast, is used as it is. *)
Theorem empty_annotation_falls_through {Schedule : Type}
    (this : WithKubeConfig.CAPIClusterProvider Schedule)
    (kubeConfigs : gmap string (option KubeConfig)) (cluster : Cluster) :
  usable (WithKubeConfig.mapGet kubeConfigs (clusterName cluster)) ->
  exists resource,
    WithKubeConfig.toResource this kubeConfigs cluster = Ok resource
    /\ (annotationOf cluster ANNOTATION_CAPI_CLUSTER_OWNER = Some "" ->
        es_owner (ent_spec resource) =
          if truthy (defaultOf (WithKubeConfig.config this) def_clusterOwner)
          then default "" (defaultOf (WithKubeConfig.config this) def_clusterOwner)
          else "guest")
    /\ (annotationOf cluster ANNOTATION_CAPI_CLUSTER_LIFECYCLE = Some "" ->
        es_lifecycle (ent_spec resource) =
          defaultOf (WithKubeConfig.config this) def_lifecycle)
    /\ (annotationOf cluster ANNOTATION_CAPI_CLUSTER_SYSTEM = Some "" ->
        es_system (ent_spec resource) =
          defaultOf (WithKubeConfig.config this) def_system)
    /\ (forall value, value <> "" ->
        (annotationOf cluster ANNOTATION_CAPI_CLUSTER_OWNER = Some value ->
         es_owner (ent_spec resource) = value)
        /\ (annotationOf cluster ANNOTATION_CAPI_CLUSTER_LIFECYCLE = Some value ->
            es_lifecycle (ent_spec resource) = Some value)
        /\ (annotationOf cluster ANNOTATION_CAPI_CLUSTER_SYSTEM = Some value ->
            es_system (ent_spec resource) = Some value)).
Proof.
  intros Hus.
  destruct (toResource_usable this kubeConfigs cluster Hus) as [resource Hres].
  exists resource. split; [done|].
  destruct (toResource_fields this _ _ _ Hres) as (Hspec & _).
  rewrite Hspec. cbn [ent_spec resourceLiteral es_owner es_lifecycle es_system].
  cbn [clusterAnnotations ann_owner ann_lifecycle ann_system].
  split; [|split; [|split]].
  - intros ->. by rewrite owner_chain.
  - by intros ->.
  - by intros ->.
  - intros value Hne.
    assert (Htruthy : truthy (Some value) = true).
    { simpl. by apply negb_true_iff, String.eqb_neq. }
    split; [|split]; intros ->.
    + rewrite owner_chain. by rewrite Htruthy.
    + unfold jsOr. by rewrite Htruthy.
    + unfold jsOr. by rewrite Htruthy.
Qed.

Lemma empty_annotation_witness :
  (exists resource,
     WithKubeConfig.toResource
       (testProvider (Ok [emptyFieldsCluster]) noSecrets (Some stagingDefaults))
       ∅ emptyFieldsCluster = Ok resource
     /\ es_owner (ent_spec resource) = "group:test-team"
     /\ es_lifecycle (ent_spec resource) = Some "staging"
     /\ es_system (ent_spec resource) = Some "test-system")
  /\ (exists resource,
        WithKubeConfig.toResource
          (testProvider (Ok [emptyFieldsCluster]) noSecrets None)
          ∅ emptyFieldsCluster = Ok resource
        /\ es_owner (ent_spec resource) = "guest"
        /\ es_lifecycle (ent_spec resource) = None
        /\ es_system (ent_spec resource) = None).
Proof.
  assert (Hus : usable (WithKubeConfig.mapGet ∅ (clusterName emptyFieldsCluster)))
    by (vm_compute; exact I).
  split.
  - destruct (empty_annotation_falls_through
                (testProvider (Ok [emptyFieldsCluster]) noSecrets (Some stagingDefaults))
                ∅ emptyFieldsCluster Hus)
      as (resource & Hres & Howner & Hlife & Hsys & _).
    exists resource. split; [exact Hres|].
    split; [exact (Howner eq_refl)|].
    split; [exact (Hlife eq_refl) | exact (Hsys eq_refl)].
  - destruct (empty_annotation_falls_through
                (testProvider (Ok [emptyFieldsCluster]) noSecrets None)
                ∅ emptyFieldsCluster Hus)
      as (resource & Hres & Howner & Hlife & Hsys & _).
    exists resource. split; [exact Hres|].
    split; [exact (Howner eq_refl)|].
    split; [exact (Hlife eq_refl) | exact (Hsys eq_refl)].
Defined.

(** ** What a cycle submits *)

Lemma mapped_names {Schedule : Type}
    (this : WithKubeConfig.CAPIClusterProvider Schedule) kubeConfigs items resources :
  Forall2 (fun cluster resource =>
             WithKubeConfig.toResource this kubeConfigs cluster = Ok resource)
          items resources ->
  map (fun resource => em_name (ent_metadata resource)) resources = map nameOf items.
Proof.
  induction 1 as [|cluster resource items resources Hres _ IH]; simpl; [done|].
  destruct (toResource_fields this _ _ _ Hres) as (_ & Hname & _).
  by rewrite Hname, IH.
Qed.

(** C7.  Every mutation a cycle submits is a full mutation with one entry
    per remote cluster, in the order of the list call: the entry's entity
    has the cluster's name as [metadata.name], unchanged, and the entry's
    location key is ["CAPIClusterProvider:<id>"].  Clusters that share a
    name therefore give entries that share a name; none is dropped. *)
Theorem submitted_entries_follow_clusters {Schedule : Type}
    (lib : KubeConfigLibrary) (this : WithKubeConfig.CAPIClusterProvider Schedule)
    (connection' : EntityProviderConnection) (items : list Cluster)
    (mutation : EntityProviderMutation) :
  WithKubeConfig.connection this = Some connection' ->
  listClusterCustomObject (WithKubeConfig.customObjectsClient this)
    "cluster.x-k8s.io" "v1beta1" "clusters" = Ok items ->
  mutation ∈ appliedMutations (trace (WithKubeConfig.refresh lib this)) ->
  exists entities,
    mutation = FullMutation entities
    /\ map (fun d => em_name (ent_metadata (entity d))) entities = map nameOf items
    /\ List.length entities = List.length items
    /\ Forall (fun d => locationKey d
                        = ("CAPIClusterProvider:"
                           ++ cfg_id (WithKubeConfig.config this))%string)
              entities.
Proof.
  intros Hconn Hlist Hin.
  pose proof (refresh_connected lib this connection' items Hconn Hlist) as Hrefresh.
  destruct (mapR _ items) as [resources|e] eqn:Hmap;
    destruct Hrefresh as [Happlied _]; rewrite Happlied in Hin;
    [|by apply elem_of_nil in Hin].
  apply list_elem_of_singleton in Hin as ->.
  exists (map (wrap this) resources). split; [done|].
  pose proof (mapR_ok_length _ _ _ Hmap) as Hlen.
  apply mapR_ok_Forall2 in Hmap.
  split; [|split].
  - rewrite <- (mapped_names this _ _ _ Hmap). by rewrite map_map.
  - by rewrite length_map.
  - apply Forall_forall. intros d Hd.
    by apply list_elem_of_fmap in Hd as (resource & -> & _).
Qed.

Lemma submitted_entries_witness :
  exists entities,
    appliedMutations
      (trace (WithKubeConfig.refresh fixtureLibrary
                (testProvider (Ok [cluster1; cluster1Again]) noSecrets None)))
      = [FullMutation entities]
    /\ map (fun d => em_name (ent_metadata (entity d))) entities
       = [Some "cluster1"; Some "cluster1"]
    /\ Forall (fun d => locationKey d = "CAPIClusterProvider:default") entities.
Proof.
  assert (Hsubmitted : exists mutation,
    appliedMutations
      (trace (WithKubeConfig.refresh fixtureLibrary
                (testProvider (Ok [cluster1; cluster1Again]) noSecrets None)))
    = [mutation])
    by (eexists; vm_compute; reflexivity).
  destruct Hsubmitted as [mutation Happlied].
  destruct (submitted_entries_follow_clusters fixtureLibrary
              (testProvider (Ok [cluster1; cluster1Again]) noSecrets None)
              acceptingConnection [cluster1; cluster1Again] mutation eq_refl eq_refl)
    as (entities & -> & Hnames & _ & Hkeys).
  { rewrite Happlied. apply list_elem_of_here. }
  exists entities. split; [exact Happlied|]. split; [exact Hnames | exact Hkeys].
Defined.

(** C8.  A cycle of a connected provider whose list call returns no
    clusters calls [applyMutation] once, with a full mutation that has no
    entities.  This holds of both provider variants. *)
Theorem empty_listing_submits_empty_full_mutation {Schedule : Type}
    (lib : KubeConfigLibrary) (this : WithKubeConfig.CAPIClusterProvider Schedule)
    (basic : Basic.CAPIClusterProvider Schedule) :
  (is_Some (WithKubeConfig.connection this) ->
   listClusterCustomObject (WithKubeConfig.customObjectsClient this)
     "cluster.x-k8s.io" "v1beta1" "clusters" = Ok [] ->
   appliedMutations (trace (WithKubeConfig.refresh lib this)) = [FullMutation []])
  /\ (is_Some (Basic.connection basic) ->
      listClusterCustomObject (Basic.client basic)
        "cluster.x-k8s.io" "v1beta1" "clusters" = Ok [] ->
      appliedMutations (trace (Basic.refresh basic)) = [FullMutation []]).
Proof.
  split.
  - intros [connection' Hconn] Hlist.
    by destruct (refresh_connected lib this connection' [] Hconn Hlist) as [-> _].
  - intros [connection' Hconn] Hlist.
    by rewrite (basic_refresh_connected basic connection' [] Hconn Hlist).
Qed.

(** The test "where there are no clusters", on both variants. *)
Lemma empty_listing_witness :
  appliedMutations
    (trace (WithKubeConfig.refresh fixtureLibrary
              (testProvider (Ok []) noSecrets (Some testTeamDefaults))))
    = [FullMutation []]
  /\ appliedMutations
       (trace (Basic.refresh (basicProvider (Ok []) (Some testTeamDefaults))))
     = [FullMutation []].
Proof.
  destruct (empty_listing_submits_empty_full_mutation fixtureLibrary
              (testProvider (Ok []) noSecrets (Some testTeamDefaults))
              (basicProvider (Ok []) (Some testTeamDefaults)))
    as [Hwith Hbasic].
  split.
  - apply Hwith; [by eexists | reflexivity].
  - apply Hbasic; [by eexists | reflexivity].
Defined.


(** * Further properties of the module *)

(** ** Traces *)

Lemma secretReads_app t1 t2 : secretReads (t1 ++ t2) = secretReads t1 ++ secretReads t2.
Proof.
  induction t1 as [|ev t1 IH]; [done|].
  destruct ev; simpl; by rewrite ?IH.
Qed.

Lemma listCalls_app t1 t2 : listCalls (t1 ++ t2) = (listCalls t1 + listCalls t2)%nat.
Proof.
  induction t1 as [|ev t1 IH]; [done|].
  destruct ev; simpl; by rewrite ?IH.
Qed.

(** [mapT] over tasks that all resolve: the result, and the trace as the
    tasks' traces one after the other. *)
Lemma mapT_resolves {A B} (f : A -> Task B) (g : A -> B) xs :
  (forall x, outcome (f x) = Ok (g x)) ->
  mapT f xs = mkTask (List.concat (map (fun x => trace (f x)) xs)) (Ok (map g xs)).
Proof.
  intros Hf. induction xs as [|x xs IH]; [done|].
  change (mapT f (x :: xs))
    with (f x ≫= (fun y => mapT f xs ≫= (fun ys => mret (y :: ys)))).
  rewrite (bind_ok (f x) _ (g x) (Hf x)). rewrite IH.
  rewrite (bind_ok _ _ (map g xs)) by done.
  cbn [trace outcome]. simpl. by rewrite app_nil_r.
Qed.

(** The first task that rejects ends [mapT]. *)
Lemma mapT_first_throw {A B} (f : A -> Task B) x xs e :
  outcome (f x) = Throw e -> mapT f (x :: xs) = mkTask (trace (f x)) (Throw e).
Proof.
  intros Hx.
  change (mapT f (x :: xs))
    with (f x ≫= (fun y => mapT f xs ≫= (fun ys => mret (y :: ys)))).
  by rewrite (bind_throw _ _ e Hx).
Qed.

Lemma mapT_first_throw_eq {A B} (f : A -> Task B) x xs e :
  f x = mkTask [] (Throw e) -> mapT f (x :: xs) = mkTask [] (Throw e).
Proof. intros Hx. rewrite (mapT_first_throw f x xs e); by rewrite Hx. Qed.

(** What [mapT] returns, it returns element by element. *)
Lemma mapT_ok_Forall2 {A B} (f : A -> Task B) xs ys :
  outcome (mapT f xs) = Ok ys -> Forall2 (fun x y => outcome (f x) = Ok y) xs ys.
Proof.
  revert ys. induction xs as [|x xs IH]; intros ys Hm.
  - inversion Hm. constructor.
  - change (mapT f (x :: xs))
      with (f x ≫= (fun y => mapT f xs ≫= (fun ys => mret (y :: ys)))) in Hm.
    destruct (outcome (f x)) as [y|e] eqn:Hx.
    + rewrite (bind_ok _ _ y Hx) in Hm. cbn [outcome] in Hm.
      destruct (outcome (mapT f xs)) as [ys'|e] eqn:Hxs.
      * rewrite (bind_ok _ _ ys' Hxs) in Hm. cbn [outcome] in Hm.
        inversion Hm; subst. constructor; [done | by apply IH].
      * by rewrite (bind_throw _ _ e Hxs) in Hm.
    + by rewrite (bind_throw _ _ e Hx) in Hm.
Qed.

(** The keys of an object are the keys of its entries. *)
Lemma objectOf_is_Some {V} (props : list (string * V)) k :
  is_Some (objectOf props !! k) <-> k ∈ props.*1.
Proof.
  induction props as [|[k' v'] props IH] using rev_ind.
  - unfold objectOf. simpl. rewrite lookup_empty. split.
    + by intros [? ?].
    + intros Hin. by apply elem_of_nil in Hin.
  - rewrite objectOf_snoc, fmap_app, elem_of_app. simpl.
    destruct (decide (k' = k)) as [->|Hne].
    + rewrite lookup_insert_eq. split; [intros _; right; by left | by eauto].
    + rewrite lookup_insert_ne by done. rewrite IH. split; [by left|].
      intros [Hin|Hin]; [done|]. apply list_elem_of_singleton in Hin. congruence.
Qed.

(** ** Reading kubeconfig secrets *)

Lemma decode_resolves lib secret :
  outcome (decodeKubeConfigFromSecret lib secret) = Ok (loadedKubeConfig lib secret).
Proof.
  unfold decodeKubeConfigFromSecret, loadedKubeConfig.
  by destruct (loadFromString lib _).
Qed.

Lemma decode_reads lib secret :
  secretReads (trace (decodeKubeConfigFromSecret lib secret)) = [].
Proof.
  unfold decodeKubeConfigFromSecret. by destruct (loadFromString lib _).
Qed.

(** X1.  [getClusterKubeConfig] performs exactly one secret read, of the
    name and namespace it is given.  It rejects exactly when that read
    rejects, and then with the error of the read: a payload that cannot be
    decoded never makes it reject, the [KubeConfig] is returned as the loader
    left it. *)
Theorem getClusterKubeConfig_rejects_with_read (lib : KubeConfigLibrary)
    (client : CoreV1Api) (name namespace : string) :
  secretReads (trace (getClusterKubeConfig lib client name namespace))
    = [(name, namespace)]
  /\ (forall e,
        outcome (getClusterKubeConfig lib client name namespace) = Throw e
        <-> readNamespacedSecret client name namespace = Throw e)
  /\ (forall kc,
        outcome (getClusterKubeConfig lib client name namespace) = Ok kc
        <-> exists secret,
              readNamespacedSecret client name namespace = Ok secret
              /\ kc = loadedKubeConfig lib secret).
Proof.
  unfold getClusterKubeConfig.
  destruct (readNamespacedSecret client name namespace) as [secret|e0] eqn:Hread.
  - rewrite (bind_ok _ _ secret) by done. cbn [trace outcome].
    rewrite decode_resolves. simpl. rewrite decode_reads.
    split; [done|]. split.
    + intros e. split; discriminate.
    + intros kc. split; [intros [= <-]; by exists secret|].
      by intros (secret' & [= <-] & ->).
  - rewrite (bind_throw _ _ e0) by done. cbn [trace outcome].
    split; [done|]. split.
    + intros e. split; intros [= ->]; done.
    + intros kc. split; [discriminate|]. by intros (secret & [=] & _).
Qed.

(** X2.  [getClusterKubeConfigs] rejects with the error of the list call
    when that call fails.  Otherwise it returns a map whose keys are exactly
    the names (["unknown"] for a secret without one) of the listed secrets
    whose type is [cluster.x-k8s.io/secret]: a secret of another type or
    without a type contributes nothing, and a payload that cannot be decoded
    does not remove its secret from the map. *)
Theorem getClusterKubeConfigs_keys (lib : KubeConfigLibrary) (client : SecretListApi)
    (namespace : string) :
  match listNamespacedSecret client namespace with
  | Throw e => outcome (getClusterKubeConfigs lib client namespace) = Throw e
  | Ok items =>
      exists kubeConfigs,
        outcome (getClusterKubeConfigs lib client namespace) = Ok kubeConfigs
        /\ forall key,
             is_Some (kubeConfigs !! key)
             <-> exists secret,
                   secret ∈ items
                   /\ secret_type secret = Some "cluster.x-k8s.io/secret"
                   /\ default "unknown" (secret_name secret) = key
  end.
Proof.
  unfold getClusterKubeConfigs.
  destruct (listNamespacedSecret client namespace) as [items|e] eqn:Hlist.
  - rewrite (bind_ok _ _ items) by done. cbn [trace outcome].
    rewrite (mapT_resolves _ (fun secret => (secretKey secret, loadedKubeConfig lib secret))).
    2:{ intros secret. by rewrite (bind_ok _ _ _ (decode_resolves lib secret)). }
    erewrite bind_ok by reflexivity. cbn [trace outcome].
    eexists. split; [reflexivity|]. intros key.
    rewrite objectOf_is_Some. rewrite <- list_fmap_compose.
    rewrite list_elem_of_fmap. split.
    + intros (secret & -> & Hin). apply list_elem_of_In, filter_In in Hin as [Hin Htype].
      exists secret. split; [by apply list_elem_of_In|]. split; [|done].
      unfold isClusterSecret in Htype. apply String.eqb_eq in Htype.
      destruct (secret_type secret) as [t|]; simpl in Htype; [by subst | done].
    + intros (secret & Hin & Htype & <-). exists secret. split; [done|].
      apply list_elem_of_In, filter_In. split; [by apply list_elem_of_In|].
      unfold isClusterSecret. by rewrite Htype.
  - by rewrite (bind_throw _ _ e).
Qed.

(** ** The entity mapper *)

(** X3.  When the kubeconfig resolved for a cluster has a first cluster
    entry, the mapped entity's API-server URL annotation is that entry's
    server, its CA annotation is that entry's [caData] (present and holding
    [undefined] when the entry has none), and the auth provider is
    ["oidc"]; further cluster entries of the kubeconfig play no part. *)
Theorem resolved_credentials_set_api_annotations {Schedule : Type}
    (this : WithKubeConfig.CAPIClusterProvider Schedule)
    (kubeConfigs : gmap string (option KubeConfig)) (cluster : Cluster)
    (kc : KubeConfig) (first : KubeCluster) (rest : list KubeCluster) :
  WithKubeConfig.mapGet kubeConfigs (clusterName cluster) = Some kc ->
  clusters kc = first :: rest ->
  exists resource,
    WithKubeConfig.toResource this kubeConfigs cluster = Ok resource
    /\ em_annotations (ent_metadata resource) !! ANNOTATION_KUBERNETES_API_SERVER
       = Some (Some (kc_server first))
    /\ em_annotations (ent_metadata resource) !! ANNOTATION_KUBERNETES_API_SERVER_CA
       = Some (kc_caData first)
    /\ em_annotations (ent_metadata resource) !! ANNOTATION_KUBERNETES_AUTH_PROVIDER
       = Some (Some "oidc").
Proof.
  intros Hget Hfirst. eexists. split.
  - exact (toResource_present this _ _ _ _ _ Hget Hfirst).
  - repeat split; reflexivity.
Qed.

Lemma resolved_credentials_witness :
  exists resource,
    WithKubeConfig.toResource (testProvider (Ok [cluster1]) noSecrets None)
      {[ "clusters/cluster1" := Some (loadedKubeConfig fixtureLibrary
                                        (clusterSecret "cluster1-kubeconfig" None
                                           kindKubeconfigText)) ]}
      cluster1 = Ok resource
    /\ em_annotations (ent_metadata resource) !! ANNOTATION_KUBERNETES_API_SERVER
       = Some (Some "https://172.18.0.2:6443")
    /\ em_annotations (ent_metadata resource) !! ANNOTATION_KUBERNETES_API_SERVER_CA
       = Some (Some "LS0tLS1CRUdJTg==")
    /\ em_annotations (ent_metadata resource) !! ANNOTATION_KUBERNETES_AUTH_PROVIDER
       = Some (Some "oidc").
Proof.
  apply (resolved_credentials_set_api_annotations
           (testProvider (Ok [cluster1]) noSecrets None) _ cluster1
           (loadedKubeConfig fixtureLibrary
              (clusterSecret "cluster1-kubeconfig" None kindKubeconfigText))
           {| kc_name := "kind-kind";
              kc_server := "https://172.18.0.2:6443";
              kc_caData := Some "LS0tLS1CRUdJTg==";
              kc_skipTLSVerify := false |} []).
  - vm_compute. reflexivity.
  - reflexivity.
Defined.

(** X4.  The mapper throws exactly when a kubeconfig was resolved for the
    cluster and it has no cluster entry; what it throws is the [TypeError]
    of reading [server] of [undefined]. *)
Theorem toResource_throws_iff_unloaded {Schedule : Type}
    (this : WithKubeConfig.CAPIClusterProvider Schedule)
    (kubeConfigs : gmap string (option KubeConfig)) (cluster : Cluster) (e : Exn) :
  WithKubeConfig.toResource this kubeConfigs cluster = Throw e
  <-> e = TypeError "Cannot read properties of undefined (reading 'server')"
      /\ exists kc,
           WithKubeConfig.mapGet kubeConfigs (clusterName cluster) = Some kc
           /\ clusters kc = [].
Proof.
  split.
  - intros Hthrow.
    destruct (WithKubeConfig.mapGet kubeConfigs (clusterName cluster)) as [kc|] eqn:Hget.
    + destruct (clusters kc) as [|first rest] eqn:Hfirst.
      * rewrite (toResource_unloaded this _ _ _ Hget Hfirst) in Hthrow.
        inversion Hthrow. split; [done|]. by exists kc.
      * by rewrite (toResource_present this _ _ _ _ _ Hget Hfirst) in Hthrow.
    + by rewrite (toResource_absent this _ _ Hget) in Hthrow.
  - intros (-> & kc & Hget & Hnone). by apply (toResource_unloaded this _ _ kc).
Qed.

(** X5.  Every entity the mappers build is a [Resource] of API version
    [backstage.io/v1beta1] and type [kubernetes-cluster], titled with the
    cluster's name, and carries the provider's name in both location
    annotations; this holds of both provider variants. *)
Theorem mapped_entity_invariants {Schedule : Type}
    (this : WithKubeConfig.CAPIClusterProvider Schedule)
    (basic : Basic.CAPIClusterProvider Schedule)
    (kubeConfigs : gmap string (option KubeConfig)) (cluster : Cluster) :
  let wellFormed provider resource :=
    ent_kind resource = "Resource"
    /\ ent_apiVersion resource = "backstage.io/v1beta1"
    /\ es_type (ent_spec resource) = "kubernetes-cluster"
    /\ em_title (ent_metadata resource) = nameOf cluster
    /\ em_name (ent_metadata resource) = nameOf cluster
    /\ em_annotations (ent_metadata resource) !! ANNOTATION_LOCATION
       = Some (Some provider)
    /\ em_annotations (ent_metadata resource) !! ANNOTATION_ORIGIN_LOCATION
       = Some (Some provider) in
  wellFormed (Basic.getProviderName basic) (Basic.toResource basic cluster)
  /\ forall resource,
       WithKubeConfig.toResource this kubeConfigs cluster = Ok resource ->
       wellFormed (WithKubeConfig.getProviderName this) resource.
Proof.
  intros wellFormed. subst wellFormed. cbv beta. split.
  - repeat split; reflexivity.
  - intros resource.
    destruct (WithKubeConfig.mapGet kubeConfigs (clusterName cluster)) as [kc|] eqn:Hget.
    + destruct (clusters kc) as [|first rest] eqn:Hfirst.
      * by rewrite (toResource_unloaded this _ _ _ Hget Hfirst).
      * rewrite (toResource_present this _ _ _ _ _ Hget Hfirst). intros [= <-].
        repeat split; reflexivity.
    + rewrite (toResource_absent this _ _ Hget). intros [= <-].
      repeat split; reflexivity.
Qed.

Lemma mapped_entity_witness :
  exists resource,
    WithKubeConfig.toResource (testProvider (Ok [cluster1]) noSecrets None) ∅ cluster1
      = Ok resource
    /\ ent_kind resource = "Resource"
    /\ es_type (ent_spec resource) = "kubernetes-cluster"
    /\ em_title (ent_metadata resource) = Some "cluster1"
    /\ em_annotations (ent_metadata resource) !! ANNOTATION_LOCATION
       = Some (Some "CAPIClusterProvider:default").
Proof.
  destruct (WithKubeConfig.toResource (testProvider (Ok [cluster1]) noSecrets None)
              ∅ cluster1) as [resource|e] eqn:Hres; [|vm_compute in Hres; discriminate].
  destruct (mapped_entity_invariants (testProvider (Ok [cluster1]) noSecrets None)
              (basicProvider (Ok [cluster1]) None) ∅ cluster1) as [_ Hwith].
  destruct (Hwith resource Hres) as (Hkind & _ & Htype & Htitle & _ & Hloc & _).
  exists resource. repeat split; assumption.
Defined.

(** X6.  An entity of the provider without kubeconfig lookup has exactly
    three annotations: the two location annotations and the provider kind.
    It never carries an API-server annotation. *)
Theorem basic_entity_annotation_keys {Schedule : Type}
    (basic : Basic.CAPIClusterProvider Schedule) (cluster : Cluster) (key : string) :
  is_Some (em_annotations (ent_metadata (Basic.toResource basic cluster)) !! key)
  <-> key = "backstage.io/managed-by-location"
      \/ key = "backstage.io/managed-by-origin-location"
      \/ key = "cluster.x-k8s.io/capi-provider".
Proof.
  unfold Basic.toResource. cbn [ent_metadata em_annotations].
  rewrite objectOf_is_Some. cbn [fmap list_fmap fst].
  unfold ANNOTATION_LOCATION, ANNOTATION_ORIGIN_LOCATION, ANNOTATION_CAPI_PROVIDER.
  rewrite !elem_of_cons. split.
  - intros [->|[->|[->|Hnil]]]; auto. by apply elem_of_nil in Hnil.
  - intros [->|[->| ->]]; auto.
Qed.

(** ** The events of a cycle *)

Lemma secretReads_concat ts :
  secretReads (List.concat ts) = List.concat (map secretReads ts).
Proof.
  induction ts as [|t ts IH]; [done|]. simpl. by rewrite secretReads_app, IH.
Qed.

Lemma listCalls_concat_zero ts :
  Forall (fun t => listCalls t = 0%nat) ts -> listCalls (List.concat ts) = 0%nat.
Proof.
  induction 1 as [|t ts Ht _ IH]; [done|]. simpl. by rewrite listCalls_app, Ht, IH.
Qed.

Lemma appliedMutations_concat_nil ts :
  Forall (fun t => appliedMutations t = []) ts -> appliedMutations (List.concat ts) = [].
Proof.
  induction 1 as [|t ts Ht _ IH]; [done|]. simpl.
  by rewrite appliedMutations_app, Ht, IH.
Qed.

Section CycleEvents.
Import WithKubeConfig.
Context {Schedule : Type}.
Variable lib : KubeConfigLibrary.
Variable this : CAPIClusterProvider Schedule.

(** One lookup: one secret read, no list call. *)
Lemma lookupKubeConfig_calls cluster :
  secretReads (trace (lookupKubeConfig lib this cluster))
    = [((tpl (nameOf cluster) ++ "-kubeconfig")%string,
        jsOrElse (namespaceOf cluster) "default")]
  /\ listCalls (trace (lookupKubeConfig lib this cluster)) = 0%nat.
Proof.
  unfold lookupKubeConfig, getClusterKubeConfig, decodeKubeConfigFromSecret.
  unfold tryCatch, mbind, Task_bind. simpl.
  destruct (readNamespacedSecret _ _ _) as [secret|e]; simpl; [|done].
  destruct (loadFromString _ _) as [kc|err kc]; simpl; done.
Qed.

(** The whole trace of a cycle that got its listing. *)
Lemma refresh_trace connection' items :
  connection this = Some connection' ->
  listClusterCustomObject (customObjectsClient this)
    "cluster.x-k8s.io" "v1beta1" "clusters" = Ok items ->
  trace (refresh lib this) =
    EvLog LInfo ("Providing CAPI Cluster resources from cluster "
                 ++ cfg_hubClusterName (config this)) None
    :: EvListClusterCustomObject "cluster.x-k8s.io" "v1beta1" "clusters"
    :: List.concat (map (fun cluster => trace (lookupKubeConfig lib this cluster)) items)
    ++ match mapR (toResource this (objectOf (entriesOf lib this items))) items with
       | Ok resources => [EvApplyMutation (FullMutation (map (wrap this) resources))]
       | Throw _ => []
       end.
Proof.
  intros Hconn Hlist. unfold refresh. rewrite Hconn.
  rewrite (bind_ok (logInfo _) _ tt) by done.
  rewrite (bind_ok (getCAPIClusters _) _ items) by done.
  rewrite (mapT_resolves _ (fun cluster => (clusterName cluster, resolved lib this cluster)))
    by (intros cluster; apply lookupKubeConfig_settles).
  erewrite bind_ok by reflexivity.
  unfold liftResult at 1 2. fold (entriesOf lib this items).
  destruct (mapR _ items) as [resources|e] eqn:Hmap.
  - erewrite bind_ok by reflexivity. cbn [trace outcome]. reflexivity.
  - rewrite (bind_throw _ _ e) by done. cbn [trace outcome]. reflexivity.
Qed.

End CycleEvents.

Lemma cycle_events_list_once {Schedule : Type}
    (lib : KubeConfigLibrary) (this : WithKubeConfig.CAPIClusterProvider Schedule)
    connection' items :
  WithKubeConfig.connection this = Some connection' ->
  listClusterCustomObject (WithKubeConfig.customObjectsClient this)
    "cluster.x-k8s.io" "v1beta1" "clusters" = Ok items ->
  listCalls (trace (WithKubeConfig.refresh lib this)) = 1%nat.
Proof.
  intros Hconn Hlist.
  rewrite (refresh_trace lib this connection' items Hconn Hlist).
  cbn [listCalls]. rewrite listCalls_app, listCalls_concat_zero.
  - by destruct (mapR _ items).
  - apply Forall_forall. intros t Ht.
    apply list_elem_of_fmap in Ht as (cluster & -> & _).
    apply lookupKubeConfig_calls.
Qed.

(** X7.  A cycle of a connected provider that got its listing makes one list
    call and, for every listed cluster in order, one read of the secret
    [<name>-kubeconfig] in the cluster's namespace, or in [default] when the
    cluster has no namespace or an empty one.  This does not depend on what
    the reads answer or on whether the cycle goes on to submit. *)
Theorem cycle_reads_one_secret_per_cluster {Schedule : Type}
    (lib : KubeConfigLibrary) (this : WithKubeConfig.CAPIClusterProvider Schedule)
    (connection' : EntityProviderConnection) (items : list Cluster) :
  WithKubeConfig.connection this = Some connection' ->
  listClusterCustomObject (WithKubeConfig.customObjectsClient this)
    "cluster.x-k8s.io" "v1beta1" "clusters" = Ok items ->
  listCalls (trace (WithKubeConfig.refresh lib this)) = 1%nat
  /\ secretReads (trace (WithKubeConfig.refresh lib this))
     = map (fun cluster =>
              ((tpl (nameOf cluster) ++ "-kubeconfig")%string,
               match namespaceOf cluster with
               | Some namespace => if String.eqb namespace "" then "default" else namespace
               | None => "default"
               end))
           items.
Proof.
  intros Hconn Hlist.
  split; [by apply (cycle_events_list_once lib this connection' items)|].
  rewrite (refresh_trace lib this connection' items Hconn Hlist).
  cbn [secretReads]. rewrite secretReads_app, secretReads_concat.
  replace (secretReads match mapR _ items with Ok _ => _ | Throw _ => _ end)
    with (@nil (string * string)) by (by destruct (mapR _ items)).
  rewrite app_nil_r, map_map.
  rewrite (map_ext _ (fun cluster =>
             [((tpl (nameOf cluster) ++ "-kubeconfig")%string,
               jsOrElse (namespaceOf cluster) "default")]))
    by (intros cluster; apply lookupKubeConfig_calls).
  clear Hlist. induction items as [|cluster items IH]; [done|].
  cbn [map List.concat app]. f_equal. apply IH.
Qed.

(** A cluster in a namespace and one without: the second secret is looked
    for in [default]. *)
Lemma cycle_reads_witness :
  listCalls (trace (WithKubeConfig.refresh fixtureLibrary
                      (testProvider (Ok [cluster1; bareCluster])
                         (secretsHolding None) None))) = 1%nat
  /\ secretReads (trace (WithKubeConfig.refresh fixtureLibrary
                           (testProvider (Ok [cluster1; bareCluster])
                              (secretsHolding None) None)))
     = [("cluster1-kubeconfig", "clusters"); ("bare-kubeconfig", "default")].
Proof.
  apply (cycle_reads_one_secret_per_cluster fixtureLibrary
           (testProvider (Ok [cluster1; bareCluster]) (secretsHolding None) None)
           acceptingConnection [cluster1; bareCluster]); reflexivity.
Defined.

(** The whole run of a cycle of the provider without kubeconfig lookup. *)
Lemma basic_refresh_run {Schedule : Type}
    (this : Basic.CAPIClusterProvider Schedule) connection' :
  Basic.connection this = Some connection' ->
  Basic.refresh this =
    match listClusterCustomObject (Basic.client this)
            "cluster.x-k8s.io" "v1beta1" "clusters" with
    | Ok items =>
        let mutation :=
          FullMutation
            (map (fun resource =>
                    {| entity := resource; locationKey := Basic.getProviderName this |})
                 (map (Basic.toResource this) items)) in
        mkTask [EvLog LInfo ("Providing CAPI Cluster resources from cluster "
                             ++ cfg_hubClusterName (Basic.config this)) None;
                EvListClusterCustomObject "cluster.x-k8s.io" "v1beta1" "clusters";
                EvApplyMutation mutation]
               (applyMutationResult connection' mutation)
    | Throw e =>
        mkTask [EvLog LInfo ("Providing CAPI Cluster resources from cluster "
                             ++ cfg_hubClusterName (Basic.config this)) None;
                EvListClusterCustomObject "cluster.x-k8s.io" "v1beta1" "clusters"]
               (Throw e)
    end.
Proof.
  intros Hconn. unfold Basic.refresh. rewrite Hconn.
  rewrite (bind_ok (logInfo _) _ tt) by done.
  destruct (listClusterCustomObject _ _ _ _) as [items|e] eqn:Hlist.
  - by rewrite (bind_ok (getCAPIClusters _) _ items).
  - by rewrite (bind_throw (getCAPIClusters _) _ e).
Qed.

(** X8.  A provider that was never connected does nothing in [refresh] but
    throw [Not initialized]: no log line, no call to the hub, no mutation.
    A connected provider makes exactly one list call per cycle, whether the
    call succeeds or fails.  Both provider variants behave so. *)
Theorem refresh_lists_iff_connected {Schedule : Type}
    (lib : KubeConfigLibrary) (this : WithKubeConfig.CAPIClusterProvider Schedule)
    (basic : Basic.CAPIClusterProvider Schedule) :
  (WithKubeConfig.connection this = None ->
   WithKubeConfig.refresh lib this = mkTask [] (Throw (Error "Not initialized")))
  /\ (is_Some (WithKubeConfig.connection this) ->
      listCalls (trace (WithKubeConfig.refresh lib this)) = 1%nat)
  /\ (Basic.connection basic = None ->
      Basic.refresh basic = mkTask [] (Throw (Error "Not initialized")))
  /\ (is_Some (Basic.connection basic) ->
      listCalls (trace (Basic.refresh basic)) = 1%nat).
Proof.
  split; [|split; [|split]].
  - intros Hnone. unfold WithKubeConfig.refresh. by rewrite Hnone.
  - intros [connection' Hconn].
    destruct (listClusterCustomObject (WithKubeConfig.customObjectsClient this)
                "cluster.x-k8s.io" "v1beta1" "clusters") as [items|e] eqn:Hlist.
    + apply (cycle_events_list_once lib this connection' items Hconn Hlist).
    + by rewrite (refresh_list_fails lib this connection' e Hconn Hlist).
  - intros Hnone. unfold Basic.refresh. by rewrite Hnone.
  - intros [connection' Hconn]. rewrite (basic_refresh_run basic connection' Hconn).
    by destruct (listClusterCustomObject _ _ _ _).
Qed.

Lemma refresh_lists_witness :
  WithKubeConfig.refresh fixtureLibrary
    {| WithKubeConfig.customObjectsClient := hubListing (Ok [cluster1]);
       WithKubeConfig.client := noSecrets;
       WithKubeConfig.config := testConfig None;
       WithKubeConfig.connection := None |}
    = mkTask [] (Throw (Error "Not initialized"))
  /\ listCalls (trace (WithKubeConfig.refresh fixtureLibrary
                         (testProvider (Throw notFound) noSecrets None))) = 1%nat
  /\ listCalls (trace (Basic.refresh (basicProvider (Ok [cluster1]) None))) = 1%nat.
Proof.
  split; [|split].
  - apply (refresh_lists_iff_connected fixtureLibrary _ (basicProvider (Ok []) None)).
    reflexivity.
  - apply (refresh_lists_iff_connected fixtureLibrary
             (testProvider (Throw notFound) noSecrets None) (basicProvider (Ok []) None)).
    by eexists.
  - apply (refresh_lists_iff_connected fixtureLibrary
             (testProvider (Ok []) noSecrets None) (basicProvider (Ok [cluster1]) None)).
    by eexists.
Defined.

(** X9.  Whatever the provider's state and whatever the hub answers, a cycle
    calls [applyMutation] at most once, and what it submits is a full
    mutation, never a delta.  Both provider variants behave so. *)
Theorem cycle_submits_at_most_once {Schedule : Type}
    (lib : KubeConfigLibrary) (this : WithKubeConfig.CAPIClusterProvider Schedule)
    (basic : Basic.CAPIClusterProvider Schedule) :
  (appliedMutations (trace (WithKubeConfig.refresh lib this)) = []
   \/ exists entities,
        appliedMutations (trace (WithKubeConfig.refresh lib this))
        = [FullMutation entities])
  /\ (appliedMutations (trace (Basic.refresh basic)) = []
      \/ exists entities,
           appliedMutations (trace (Basic.refresh basic)) = [FullMutation entities]).
Proof.
  split.
  - destruct (WithKubeConfig.connection this) as [connection'|] eqn:Hconn.
    + destruct (listClusterCustomObject (WithKubeConfig.customObjectsClient this)
                  "cluster.x-k8s.io" "v1beta1" "clusters") as [items|e] eqn:Hlist.
      * pose proof (refresh_connected lib this connection' items Hconn Hlist) as Hrun.
        destruct (mapR _ items) as [resources|e]; destruct Hrun as [-> _];
          [right; by eexists | by left].
      * left. by rewrite (refresh_list_fails lib this connection' e Hconn Hlist).
    + left. unfold WithKubeConfig.refresh. by rewrite Hconn.
  - destruct (Basic.connection basic) as [connection'|] eqn:Hconn.
    + rewrite (basic_refresh_run basic connection' Hconn).
      destruct (listClusterCustomObject _ _ _ _); [right; by eexists | by left].
    + left. unfold Basic.refresh. by rewrite Hconn.
Qed.

(** X10.  The unit of work handed to the task runner is named
    [<provider name>:refresh] and never rejects.  When the cycle succeeds its
    events are those of the cycle; when the cycle throws, they are those of
    the cycle followed by one error log line that carries the provider's name
    and the exception.  Both provider variants behave so. *)
Theorem scheduled_task_never_rejects {Schedule : Type}
    (lib : KubeConfigLibrary) (this : WithKubeConfig.CAPIClusterProvider Schedule)
    (basic : Basic.CAPIClusterProvider Schedule) :
  let swallows (providerName : string) (cycle : Task unit) (task : ScheduledTask) :=
    task_id task = (providerName ++ ":refresh")%string
    /\ outcome (task_fn task) = Ok tt
    /\ trace (task_fn task) =
         match outcome cycle with
         | Ok _ => trace cycle
         | Throw e =>
             trace cycle
             ++ [EvLog LError (providerName ++ " refresh failed") (Some e)]
         end in
  swallows ("CAPIClusterProvider:" ++ cfg_id (WithKubeConfig.config this))%string
           (WithKubeConfig.refresh lib this)
           (WithKubeConfig.createScheduleFn lib this)
  /\ swallows ("CAPIClusterProvider:" ++ cfg_id (Basic.config basic))%string
              (Basic.refresh basic)
              (Basic.createScheduleFn basic).
Proof.
  intros swallows. subst swallows. cbv beta.
  unfold WithKubeConfig.createScheduleFn, Basic.createScheduleFn. cbn [task_id task_fn].
  split.
  - split; [done|]. unfold tryCatch.
    destruct (outcome (WithKubeConfig.refresh lib this)) as [[]|e] eqn:Hout;
      [by rewrite Hout | done].
  - split; [done|]. unfold tryCatch.
    destruct (outcome (Basic.refresh basic)) as [[]|e] eqn:Hout;
      [by rewrite Hout | done].
Qed.

(** X11.  A cycle that reaches [applyMutation] settles as that call does: if
    the catalog rejects the mutation, [refresh] rejects with the catalog's
    error.  Both provider variants behave so. *)
Theorem cycle_settles_as_submission {Schedule : Type}
    (lib : KubeConfigLibrary) (this : WithKubeConfig.CAPIClusterProvider Schedule)
    (basic : Basic.CAPIClusterProvider Schedule)
    (connection' : EntityProviderConnection) (mutation : EntityProviderMutation) :
  (WithKubeConfig.connection this = Some connection' ->
   mutation ∈ appliedMutations (trace (WithKubeConfig.refresh lib this)) ->
   outcome (WithKubeConfig.refresh lib this) = applyMutationResult connection' mutation)
  /\ (Basic.connection basic = Some connection' ->
      mutation ∈ appliedMutations (trace (Basic.refresh basic)) ->
      outcome (Basic.refresh basic) = applyMutationResult connection' mutation).
Proof.
  split.
  - intros Hconn Hin.
    destruct (listClusterCustomObject (WithKubeConfig.customObjectsClient this)
                "cluster.x-k8s.io" "v1beta1" "clusters") as [items|e] eqn:Hlist.
    + pose proof (refresh_connected lib this connection' items Hconn Hlist) as Hrun.
      destruct (mapR _ items) as [resources|e]; destruct Hrun as [Happlied Hout];
        rewrite Happlied in Hin.
      * apply list_elem_of_singleton in Hin as ->. exact Hout.
      * by apply elem_of_nil in Hin.
    + rewrite (refresh_list_fails lib this connection' e Hconn Hlist) in Hin.
      by apply elem_of_nil in Hin.
  - intros Hconn Hin. rewrite (basic_refresh_run basic connection' Hconn) in Hin |- *.
    destruct (listClusterCustomObject _ _ _ _) as [items|e].
    + cbn in Hin. apply list_elem_of_singleton in Hin as ->. reflexivity.
    + by apply elem_of_nil in Hin.
Qed.

(** A catalog that rejects every mutation. *)
Lemma cycle_settles_witness :
  let rejecting := {| applyMutationResult := fun _ => Throw (Error "conflict") |} in
  outcome (WithKubeConfig.refresh fixtureLibrary
             {| WithKubeConfig.customObjectsClient := hubListing (Ok []);
                WithKubeConfig.client := noSecrets;
                WithKubeConfig.config := testConfig None;
                WithKubeConfig.connection := Some rejecting |})
    = Throw (Error "conflict")
  /\ outcome (Basic.refresh
                {| Basic.client := hubListing (Ok []);
                   Basic.config := testConfig None;
                   Basic.connection := Some rejecting |})
     = Throw (Error "conflict").
Proof.
  intros rejecting.
  destruct (cycle_settles_as_submission fixtureLibrary
              {| WithKubeConfig.customObjectsClient := hubListing (Ok []);
                 WithKubeConfig.client := noSecrets;
                 WithKubeConfig.config := testConfig None;
                 WithKubeConfig.connection := Some rejecting |}
              {| Basic.client := hubListing (Ok []);
                 Basic.config := testConfig None;
                 Basic.connection := Some rejecting |}
              rejecting (FullMutation [])) as [Hwith Hbasic].
  split.
  - apply Hwith; [reflexivity | apply list_elem_of_here].
  - apply Hbasic; [reflexivity | apply list_elem_of_here].
Defined.




(** X13.  A cycle of the connected provider without kubeconfig lookup that
    got its listing always submits: exactly one full mutation with one entry
    per listed cluster, in order, each named after its cluster and keyed with
    the provider's name.  No cluster can make this variant's cycle fail. *)
Theorem basic_cycle_submits_every_cluster {Schedule : Type}
    (basic : Basic.CAPIClusterProvider Schedule)
    (connection' : EntityProviderConnection) (items : list Cluster) :
  Basic.connection basic = Some connection' ->
  listClusterCustomObject (Basic.client basic)
    "cluster.x-k8s.io" "v1beta1" "clusters" = Ok items ->
  exists entities,
    appliedMutations (trace (Basic.refresh basic)) = [FullMutation entities]
    /\ map (fun d => em_name (ent_metadata (entity d))) entities = map nameOf items
    /\ map (fun d => ent_spec (entity d)) entities
       = map (fun cluster => ent_spec (Basic.toResource basic cluster)) items
    /\ Forall (fun d => locationKey d
                        = ("CAPIClusterProvider:" ++ cfg_id (Basic.config basic))%string)
              entities.
Proof.
  intros Hconn Hlist. rewrite (basic_refresh_run basic connection' Hconn), Hlist.
  eexists. split; [reflexivity|]. split; [|split].
  - rewrite !map_map. reflexivity.
  - rewrite !map_map. reflexivity.
  - apply Forall_forall. intros d Hd.
    by apply list_elem_of_fmap in Hd as (resource & -> & _).
Qed.

Lemma basic_cycle_witness :
  exists entities,
    appliedMutations (trace (Basic.refresh (basicProvider (Ok [cluster1; bareCluster])
                                              (Some testTeamDefaults))))
      = [FullMutation entities]
    /\ map (fun d => em_name (ent_metadata (entity d))) entities
       = [Some "cluster1"; Some "bare"].
Proof.
  destruct (basic_cycle_submits_every_cluster
              (basicProvider (Ok [cluster1; bareCluster]) (Some testTeamDefaults))
              acceptingConnection [cluster1; bareCluster] eq_refl eq_refl)
    as (entities & Happlied & Hnames & _).
  exists entities. split; [exact Happlied | exact Hnames].
Defined.

(** ** Creating providers *)

Lemma liftResult_bind {A B} (r : Result A) (f : A -> Task B) :
  liftResult r ≫= f =
    match r with
    | Ok a => f a
    | Throw e => mkTask [] (Throw e)
    end.
Proof.
  destruct r as [a|e]; unfold liftResult, mbind, Task_bind; cbn [outcome trace]; [|done].
  by destruct (f a) as [t [b|e]].
Qed.

Section FactoryFacts.
Import BasicFactory.
Context {C : Type} `{ConfigLists C} {Schedule TaskRunner Scheduler : Type}.
Variable readSchedule : C -> Result Schedule.
Variable makeApiClient : KubeConfigSource -> CustomObjectsApi.
Variable createRunner : Scheduler -> option Schedule -> TaskRunner.

(** A provider that was created: what it holds and what made it possible. *)
Lemma newProvider_ok rootConfig (options : ProviderOptions TaskRunner Scheduler)
    providerConfig provider runner :
  outcome (newProvider makeApiClient createRunner rootConfig options providerConfig)
    = Ok (provider, runner) ->
  Basic.config provider = providerConfig
  /\ Basic.connection provider = None
  /\ taskRunnerFor createRunner options providerConfig = Ok runner
  /\ (is_Some (po_schedule options) \/ is_Some (cfg_schedule providerConfig))
  /\ (is_Some (po_schedule options) \/ is_Some (po_scheduler options)).
Proof.
  unfold newProvider. intros Hout.
  assert (Hbody :
    outcome (taskRunner ← liftResult (taskRunnerFor createRunner options providerConfig);
             client ← clusterApiClient makeApiClient
                        (cfg_hubClusterName providerConfig) rootConfig;
             mret ({| Basic.client := client;
                      Basic.config := providerConfig;
                      Basic.connection := None |}, taskRunner))
      = Ok (provider, runner) ->
    Basic.config provider = providerConfig
    /\ Basic.connection provider = None
    /\ taskRunnerFor createRunner options providerConfig = Ok runner).
  { rewrite liftResult_bind.
    destruct (taskRunnerFor createRunner options providerConfig) as [r|e]; [|done].
    destruct (outcome (clusterApiClient makeApiClient
                         (cfg_hubClusterName providerConfig) rootConfig))
      as [client|e] eqn:Hclient.
    - rewrite (bind_ok _ _ client Hclient). cbn [outcome].
      intros [= <- <-]. done.
    - by rewrite (bind_throw _ _ e Hclient). }
  destruct (po_schedule options) as [given|] eqn:Hgiven.
  - destruct (Hbody Hout) as (Hc & Hn & Hr).
    split; [done|]. split; [done|]. split; [done|]. split; left; eauto.
  - destruct (cfg_schedule providerConfig) as [schedule|] eqn:Hsched; [|done].
    destruct (Hbody Hout) as (Hc & Hn & Hr).
    split; [done|]. split; [done|]. split; [done|]. split; [right; eauto|].
    right. unfold taskRunnerFor in Hr. rewrite Hgiven in Hr.
    destruct (po_scheduler options); [eauto | discriminate].
Qed.

End FactoryFacts.

(** X14.  [fromConfig] reads the provider configuration before it looks at
    its options: a configuration that cannot be read fails with its own
    error.  With a readable configuration and neither a task runner nor a
    scheduler it throws [Either schedule or scheduler must be provided.],
    even when no provider is configured.  With a scheduler only, a first
    provider without a [schedule] block makes it throw the error that names
    that provider, before any client is built. *)
Theorem fromConfig_error_order {C : Type} `{ConfigLists C}
    {Schedule TaskRunner Scheduler : Type}
    (readSchedule : C -> Result Schedule)
    (makeApiClient : KubeConfigSource -> CustomObjectsApi)
    (createRunner : Scheduler -> option Schedule -> TaskRunner)
    (rootConfig : C) (options : ProviderOptions TaskRunner Scheduler) :
  let created :=
    BasicFactory.fromConfig readSchedule makeApiClient createRunner rootConfig options in
  (forall e,
     readProviderConfigs readSchedule rootConfig = Throw e ->
     created = mkTask [] (Throw e))
  /\ (forall providerConfigs,
        readProviderConfigs readSchedule rootConfig = Ok providerConfigs ->
        po_schedule options = None ->
        po_scheduler options = None ->
        created = mkTask [] (Throw (Error "Either schedule or scheduler must be provided.")))
  /\ (forall providerConfig others,
        readProviderConfigs readSchedule rootConfig = Ok (providerConfig :: others) ->
        po_schedule options = None ->
        is_Some (po_scheduler options) ->
        cfg_schedule providerConfig = None ->
        created =
          mkTask []
            (Throw (Error ("No schedule provided neither via code nor config for "
                           ++ "CAPIClusterProvider:" ++ cfg_id providerConfig ++ ".")))).
Proof.
  intros created. subst created. unfold BasicFactory.fromConfig.
  rewrite liftResult_bind. split; [|split].
  - by intros e ->.
  - by intros providerConfigs -> -> ->.
  - intros providerConfig others -> Hnone [scheduler ->] Hsched.
    rewrite Hnone. apply mapT_first_throw_eq.
    unfold BasicFactory.newProvider. by rewrite Hnone, Hsched.
Qed.

Lemma fromConfig_error_witness :
  BasicFactory.fromConfig scheduleOfConfig emptyHub runnerOf noProvidersDoc
    {| po_schedule := @None string; po_scheduler := @None string |}
    = mkTask [] (Throw (Error "Either schedule or scheduler must be provided."))
  /\ BasicFactory.fromConfig scheduleOfConfig emptyHub runnerOf unscheduledRoot
       {| po_schedule := @None string; po_scheduler := Some "scheduler" |}
     = mkTask []
         (Throw (Error "No schedule provided neither via code nor config for CAPIClusterProvider:default.")).
Proof.
  split.
  - apply (fromConfig_error_order scheduleOfConfig emptyHub runnerOf noProvidersDoc
             {| po_schedule := @None string; po_scheduler := @None string |}) with [];
      reflexivity.
  - destruct (readProviderConfigs scheduleOfConfig unscheduledRoot)
      as [[|providerConfig others]|e] eqn:Hread; try (vm_compute in Hread; discriminate).
    assert (Hid : cfg_id providerConfig = "default"
                  /\ cfg_schedule providerConfig = None).
    { vm_compute in Hread. inversion Hread. split; reflexivity. }
    destruct Hid as [Hid Hsched].
    destruct (fromConfig_error_order scheduleOfConfig emptyHub runnerOf unscheduledRoot
                {| po_schedule := @None string; po_scheduler := Some "scheduler" |})
      as (_ & _ & Hnamed).
    rewrite (Hnamed providerConfig others Hread eq_refl (ltac:(by eexists)) Hsched).
    by rewrite Hid.
Defined.

(** X15.  The providers [fromConfig] returns are the configured providers,
    one each and in order.  Each comes with the task runner passed in the
    options, or else with the one the scheduler makes from the provider's own
    schedule, so that none is created without a schedule source.  Each is
    disconnected: until [connect] is called its [refresh] throws
    [Not initialized] and touches nothing. *)
Theorem fromConfig_creates_disconnected_providers {C : Type} `{ConfigLists C}
    {Schedule TaskRunner Scheduler : Type}
    (readSchedule : C -> Result Schedule)
    (makeApiClient : KubeConfigSource -> CustomObjectsApi)
    (createRunner : Scheduler -> option Schedule -> TaskRunner)
    (rootConfig : C) (options : ProviderOptions TaskRunner Scheduler)
    (created : list (Basic.CAPIClusterProvider Schedule * TaskRunner)) :
  outcome (BasicFactory.fromConfig readSchedule makeApiClient createRunner
             rootConfig options) = Ok created ->
  readProviderConfigs readSchedule rootConfig
    = Ok (map (fun pr => Basic.config pr.1) created)
  /\ Forall
       (fun pr =>
          Basic.connection pr.1 = None
          /\ Basic.refresh pr.1 = mkTask [] (Throw (Error "Not initialized"))
          /\ (is_Some (po_schedule options)
              \/ is_Some (cfg_schedule (Basic.config pr.1)))
          /\ match po_schedule options with
             | Some runner => pr.2 = runner
             | None =>
                 exists scheduler,
                   po_scheduler options = Some scheduler
                   /\ pr.2 = createRunner scheduler (cfg_schedule (Basic.config pr.1))
             end)
       created.
Proof.
  unfold BasicFactory.fromConfig. rewrite liftResult_bind.
  destruct (readProviderConfigs readSchedule rootConfig) as [providerConfigs|e];
    [|discriminate].
  intros Hout.
  assert (Hmap : outcome (mapT (BasicFactory.newProvider makeApiClient createRunner
                                  rootConfig options) providerConfigs) = Ok created).
  { destruct (po_schedule options); [exact Hout|].
    destruct (po_scheduler options); [exact Hout | discriminate]. }
  clear Hout. apply mapT_ok_Forall2 in Hmap.
  induction Hmap as [|providerConfig [provider runner] providerConfigs created Hnew _ IH].
  - split; [done | constructor].
  - destruct IH as [IHread IHall].
    destruct (newProvider_ok makeApiClient createRunner _ _ _ _ _ Hnew)
      as (Hconfig & Hconn & Hrunner & Hsource & _).
    split.
    + simpl. inversion IHread as [Heq]. by rewrite Hconfig, <- Heq.
    + constructor; [|done]. cbn [fst snd]. rewrite Hconfig.
      split; [done|]. split; [unfold Basic.refresh; by rewrite Hconn|].
      split; [done|]. unfold BasicFactory.taskRunnerFor in Hrunner.
      destruct (po_schedule options) as [given|]; [by inversion Hrunner|].
      destruct (po_scheduler options) as [scheduler|]; [|discriminate].
      exists scheduler. by inversion Hrunner.
Qed.

(** The provider of the tests, created with a scheduler from its own
    schedule block. *)
Lemma fromConfig_creates_witness :
  exists provider,
    outcome (BasicFactory.fromConfig scheduleOfConfig emptyHub runnerOf scheduledRoot
               {| po_schedule := @None string; po_scheduler := Some "scheduler" |})
      = Ok [(provider, "scheduler:scheduled")]
    /\ cfg_id (Basic.config provider) = "default"
    /\ Basic.connection provider = None
    /\ Basic.refresh provider = mkTask [] (Throw (Error "Not initialized")).
Proof.
  destruct (outcome (BasicFactory.fromConfig scheduleOfConfig emptyHub runnerOf
                       scheduledRoot
                       {| po_schedule := @None string;
                          po_scheduler := Some "scheduler" |}))
    as [[|[provider runner] [|second others]]|e] eqn:Hout;
    try (vm_compute in Hout; discriminate).
  destruct (fromConfig_creates_disconnected_providers _ _ _ _ _ _ Hout)
    as [Hread Hall].
  apply Forall_cons in Hall as [(Hconn & Hrefresh & _ & scheduler & [= <-] & Hrunner) _].
  exists provider. cbn [fst snd] in *.
  assert (Hschedule : cfg_id (Basic.config provider) = "default"
                      /\ runnerOf "scheduler" (cfg_schedule (Basic.config provider))
                         = "scheduler:scheduled").
  { vm_compute in Hout. inversion Hout. split; reflexivity. }
  destruct Hschedule as [Hid Hrun].
  split; [by rewrite Hrunner, Hrun|]. split; [exact Hid|].
  split; [exact Hconn | exact Hrefresh].
Defined.

(** ** The cluster locator *)

Lemma findR_first {A} (p : A -> Result bool) pre x post :
  Forall (fun y => p y = Ok false) pre -> p x = Ok true ->
  findR p (pre ++ x :: post) = Ok (Some x).
Proof.
  intros Hpre Hx. induction Hpre as [|y pre Hy _ IH]; simpl.
  - by rewrite Hx.
  - by rewrite Hy.
Qed.

Lemma findR_none {A} (p : A -> Result bool) xs :
  Forall (fun y => p y = Ok false) xs -> findR p xs = Ok None.
Proof. induction 1 as [|y xs Hy _ IH]; simpl; [done | by rewrite Hy]. Qed.

Lemma findR_found {A} (p : A -> Result bool) xs x :
  findR p xs = Ok (Some x) -> x ∈ xs /\ p x = Ok true.
Proof.
  induction xs as [|y xs IH]; simpl; [discriminate|].
  destruct (p y) as [[|]|e] eqn:Hy; simpl; [| |discriminate].
  - intros [= ->]. split; [by left | done].
  - intros Hfind. destruct (IH Hfind) as [Hin Hp]. split; [by right | done].
Qed.

(** X16.  [getCAPIClusterFromKubernetesConfig] returns the first cluster
    entry, over all locator methods in order, whose name is the hub name.
    Whatever it returns is a listed entry with that name, and when no listed
    entry has the name it throws [CAPI hub cluster <name> not defined in
    kubernetes config]. *)
Theorem hub_lookup_first_named {C : Type} `{ConfigLists C}
    (hubName : string) (config : C) (methods listed : list C) :
  getConfigArray config "kubernetes.clusterLocatorMethods" = Ok methods ->
  flatMapR clustersOfMethod methods = Ok listed ->
  let otherName entry :=
    exists name, getString entry "name" = Ok name /\ name <> hubName in
  (forall cluster,
     getCAPIClusterFromKubernetesConfig hubName config = Ok cluster ->
     cluster ∈ listed /\ getString cluster "name" = Ok hubName)
  /\ (forall before cluster after,
        listed = before ++ cluster :: after ->
        Forall otherName before ->
        getString cluster "name" = Ok hubName ->
        getCAPIClusterFromKubernetesConfig hubName config = Ok cluster)
  /\ (Forall otherName listed ->
      getCAPIClusterFromKubernetesConfig hubName config
      = Throw (Error ("CAPI hub cluster " ++ hubName
                      ++ " not defined in kubernetes config"))).
Proof.
  intros Hmethods Hlisted otherName.
  unfold getCAPIClusterFromKubernetesConfig, CLUSTERS_PATH.
  rewrite Hmethods. simpl. rewrite Hlisted. simpl.
  assert (Hother : forall entry, otherName entry -> isNamed hubName entry = Ok false).
  { intros entry (name & Hname & Hne). unfold isNamed. rewrite Hname. simpl.
    f_equal. by apply String.eqb_neq. }
  assert (Hsame : forall entry,
    getString entry "name" = Ok hubName -> isNamed hubName entry = Ok true).
  { intros entry Hname. unfold isNamed. rewrite Hname. simpl.
    by rewrite String.eqb_refl. }
  split; [|split].
  - intros cluster Hfound.
    destruct (findR (isNamed hubName) listed) as [[found|]|e] eqn:Hfind;
      simpl in Hfound; try discriminate.
    inversion Hfound; subst. apply findR_found in Hfind as [Hin Hp].
    split; [done|]. unfold isNamed in Hp.
    destruct (getString cluster "name") as [name|e]; simpl in Hp; [|discriminate].
    inversion Hp as [Heq]. apply String.eqb_eq in Heq. by subst.
  - intros before cluster after -> Hbefore Hname.
    rewrite (findR_first _ before cluster after); [done| |by apply Hsame].
    eapply Forall_impl; [exact Hbefore | exact Hother].
  - intros Hall. rewrite findR_none; [done|].
    eapply Forall_impl; [exact Hall | exact Hother].
Qed.

(** The locator of the tests: [cluster1] is found behind a method without
    clusters and an entry of another name; [cluster9] is not listed. *)
Lemma hub_lookup_witness :
  (exists cluster,
     getCAPIClusterFromKubernetesConfig "cluster1" scheduledRoot = Ok cluster
     /\ getString cluster "url" = Ok "http://cluster.example.com")
  /\ getCAPIClusterFromKubernetesConfig "cluster9" scheduledRoot
     = Throw (Error "CAPI hub cluster cluster9 not defined in kubernetes config").
Proof.
  destruct (getConfigArray scheduledRoot "kubernetes.clusterLocatorMethods")
    as [methods|e] eqn:Hmethods; [|vm_compute in Hmethods; discriminate].
  destruct (flatMapR clustersOfMethod methods) as [listed|e] eqn:Hlisted;
    [|vm_compute in Hmethods; inversion Hmethods; subst;
      vm_compute in Hlisted; discriminate].
  assert (Hshape : listed =
    [{| cr_data := [("name", JStr "cluster0")] |};
     {| cr_data := [("name", JStr "cluster1");
                    ("serviceAccountToken", JStr "TOKEN");
                    ("url", JStr "http://cluster.example.com");
                    ("caData", JStr "TESTING-CA")] |}]).
  { vm_compute in Hmethods. inversion Hmethods; subst.
    vm_compute in Hlisted. by inversion Hlisted. }
  split.
  - destruct (hub_lookup_first_named "cluster1" scheduledRoot methods listed
                Hmethods Hlisted) as (_ & Hfirst & _).
    eexists. split.
    + apply (Hfirst [{| cr_data := [("name", JStr "cluster0")] |}] _ []).
      * exact Hshape.
      * constructor; [|constructor]. exists "cluster0". split; [reflexivity | discriminate].
      * reflexivity.
    + reflexivity.
  - destruct (hub_lookup_first_named "cluster9" scheduledRoot methods listed
                Hmethods Hlisted) as (_ & _ & Hnone).
    apply Hnone. rewrite Hshape.
    constructor; [|constructor; [|constructor]].
    + exists "cluster0". split; [reflexivity | discriminate].
    + exists "cluster1". split; [reflexivity | discriminate].
Defined.



(** X18.  The earlier helper [getCustomObjectsApi] does what the later pair
    does: it builds the kubeconfig as [newKubeConfigFromConfig] does, with
    the same log lines and the same errors, and hands it to
    [makeApiClient]. *)
Theorem getCustomObjectsApi_is_client_of_kubeconfig {C : Type} `{ConfigLists C}
    (makeApiClient : KubeConfigSource -> CustomObjectsApi) (clusterConfig : C) :
  getCustomObjectsApi makeApiClient clusterConfig
  = (kubeConfig ← newKubeConfigFromConfig clusterConfig;
     mret (makeApiClient kubeConfig)).
Proof.
  unfold getCustomObjectsApi, newKubeConfigFromConfig.
  rewrite !liftResult_bind.
  destruct (getOptionalString clusterConfig "serviceAccountToken") as [token|e];
    [|reflexivity].
  destruct (truthyString token) as [clusterToken|]; [|reflexivity].
  rewrite !(bind_ok (logInfo _) _ tt) by done. rewrite !liftResult_bind.
  destruct (getString clusterConfig "name") as [name|e]; [|reflexivity].
  rewrite !liftResult_bind.
  destruct (getString clusterConfig "url") as [url|e]; [|reflexivity].
  rewrite !liftResult_bind.
  destruct (getOptionalBoolean clusterConfig "skipTLSVerify") as [skip|e]; [|reflexivity].
  rewrite !liftResult_bind.
  destruct (getOptionalString clusterConfig "caData") as [caData|e]; reflexivity.
Qed.

(** ** The status endpoint *)

(** X19.  The body of [GET /status] has one record per listed cluster, in
    order, each stamped with the hub's name.  A record reports the control
    plane or the infrastructure as ready only when the cluster's status says
    so; a cluster without status, or without the flag, is reported not ready,
    and a cluster without metadata gets empty name and namespace.  When the
    list call fails, so does the handler, with the same error. *)
Theorem status_body_follows_listing (sourceClusterName : string)
    (listing : Result (list Router.Cluster)) :
  match listing with
  | Throw e => Router.statusBody sourceClusterName listing = Throw e
  | Ok items =>
      exists body,
        Router.statusBody sourceClusterName listing = Ok body
        /\ Forall2
             (fun cluster record =>
                Router.cluster record = sourceClusterName
                /\ (Router.controlPlaneReady record = true
                    <-> exists status,
                          Router.status cluster = Some status
                          /\ Router.sf_controlPlaneReady status = Some true)
                /\ (Router.infrastructureReady record = true
                    <-> exists status,
                          Router.status cluster = Some status
                          /\ Router.sf_infrastructureReady status = Some true)
                /\ (Router.metadata cluster = None ->
                    Router.name record = "" /\ Router.namespace record = ""))
             items body
  end.
Proof.
  destruct listing as [items|e]; [|reflexivity].
  eexists. split; [reflexivity|].
  induction items as [|cluster items IH]; constructor; [|exact IH].
  unfold Router.parseClusterStatus. cbn.
  split; [done|]. split; [|split].
  - destruct (Router.status cluster) as [status|]; cbn.
    + destruct (Router.sf_controlPlaneReady status) as [[|]|] eqn:Hready; cbn.
      * split; [intros _; by exists status | done].
      * split; [discriminate | by intros (? & [= <-] & Habs); congruence].
      * split; [discriminate | by intros (? & [= <-] & Habs); congruence].
    + split; [discriminate | by intros (? & [=] & _)].
  - destruct (Router.status cluster) as [status|]; cbn.
    + destruct (Router.sf_infrastructureReady status) as [[|]|] eqn:Hready; cbn.
      * split; [intros _; by exists status | done].
      * split; [discriminate | by intros (? & [= <-] & Habs); congruence].
      * split; [discriminate | by intros (? & [= <-] & Habs); congruence].
    + split; [discriminate | by intros (? & [=] & _)].
  - by intros ->.
Qed.

(** ** Tags *)

Lemma split_cons sep s : exists piece pieces, split sep s = piece :: pieces.
Proof.
  induction s as [|c rest (piece & pieces & IH)]; simpl; [by eexists _, _|].
  destruct (Ascii.eqb c sep); [by eexists _, _|]. rewrite IH. by eexists _, _.
Qed.

Lemma split_length sep s : List.length (split sep s) = S (occurrences sep s).
Proof.
  induction s as [|c rest IH]; simpl; [done|].
  destruct (Ascii.eqb c sep); simpl; [by rewrite IH|].
  destruct (split_cons sep rest) as (piece & pieces & Hs). rewrite Hs in IH |- *.
  exact IH.
Qed.

Lemma split_pieces_free sep s :
  Forall (fun piece => occurrences sep piece = 0%nat) (split sep s).
Proof.
  induction s as [|c rest IH]; simpl; [by constructor|].
  destruct (Ascii.eqb c sep) eqn:Hc; [by constructor|].
  destruct (split_cons sep rest) as (piece & pieces & Hs). rewrite Hs in IH |- *.
  apply Forall_cons in IH as [Hpiece Hpieces].
  constructor; [|done]. simpl. by rewrite Hc.
Qed.

Lemma trimStart_occurrences c s : (occurrences c (trimStart s) <= occurrences c s)%nat.
Proof.
  induction s as [|c' rest IH]; simpl; [done|].
  destruct (isWhiteSpace c'); simpl; lia.
Qed.

Lemma trimEnd_occurrences c s : (occurrences c (trimEnd s) <= occurrences c s)%nat.
Proof.
  induction s as [|c' rest IH]; simpl; [done|].
  destruct (trimEnd rest) as [|k kept] eqn:Hkept.
  - destruct (isWhiteSpace c'); simpl in *; lia.
  - simpl in *. lia.
Qed.

Lemma trimStart_starts s : startsWithWhiteSpace (trimStart s) = false.
Proof.
  induction s as [|c rest IH]; simpl; [done|].
  destruct (isWhiteSpace c) eqn:Hc; [done|]. simpl. exact Hc.
Qed.

Lemma trimEnd_starts s :
  startsWithWhiteSpace s = false -> startsWithWhiteSpace (trimEnd s) = false.
Proof.
  destruct s as [|c rest]; simpl; [done|]. intros Hc.
  destruct (trimEnd rest); [by rewrite Hc | done].
Qed.

Lemma trimEnd_ends s : endsWithWhiteSpace (trimEnd s) = false.
Proof.
  induction s as [|c rest IH]; simpl; [done|].
  destruct (trimEnd rest) as [|k kept] eqn:Hkept.
  - destruct (isWhiteSpace c) eqn:Hc; [done|]. simpl. exact Hc.
  - exact IH.
Qed.

(** X20.  A cluster with a tags annotation gets as many tags as the
    annotation has commas, plus one; no tag contains a comma, and none starts
    or ends with white space.  The list is never empty, so the provider's
    default tags are never used for such a cluster, not even when the
    annotation is the empty string. *)
Theorem tags_are_trimmed_pieces {Schedule : Type}
    (basic : Basic.CAPIClusterProvider Schedule) (cluster : Cluster) (value : string) :
  annotationOf cluster ANNOTATION_CAPI_CLUSTER_TAGS = Some value ->
  exists tags,
    ann_tags (clusterAnnotations cluster) = Some tags
    /\ em_tags (ent_metadata (Basic.toResource basic cluster)) = Some tags
    /\ List.length tags = S (occurrences "," value)
    /\ Forall (fun tag =>
                 occurrences "," tag = 0%nat
                 /\ startsWithWhiteSpace tag = false
                 /\ endsWithWhiteSpace tag = false)
              tags.
Proof.
  intros Hann. exists (map trim (split "," value)).
  split; [|split; [|split]].
  - unfold clusterAnnotations. cbn [ann_tags]. by rewrite Hann.
  - unfold Basic.toResource, clusterAnnotations.
    cbn [ent_metadata em_tags ann_tags]. by rewrite Hann.
  - by rewrite length_map, split_length.
  - apply Forall_forall. intros tag Htag.
    apply list_elem_of_fmap in Htag as (piece & -> & Hpiece).
    pose proof (split_pieces_free "," value) as Hfree.
    rewrite Forall_forall in Hfree. specialize (Hfree piece Hpiece).
    unfold trim. split; [|split].
    + pose proof (trimEnd_occurrences "," (trimStart piece)).
      pose proof (trimStart_occurrences "," piece). lia.
    + apply trimEnd_starts, trimStart_starts.
    + apply trimEnd_ends.
Qed.

(** An empty tags annotation on a provider with default tags. *)
Lemma tags_are_trimmed_witness :
  em_tags (ent_metadata
             (Basic.toResource (basicProvider (Ok []) (Some otherTagsDefaults))
                (testCluster "cluster1"
                   (Some {[ ANNOTATION_CAPI_CLUSTER_TAGS := "" ]}))))
  = Some [""].
Proof.
  assert (Hempty :
    annotationOf (testCluster "cluster1" (Some {[ ANNOTATION_CAPI_CLUSTER_TAGS := "" ]}))
      ANNOTATION_CAPI_CLUSTER_TAGS = Some EmptyString)
    by (vm_compute; reflexivity).
  destruct (tags_are_trimmed_pieces
              (basicProvider (Ok []) (Some otherTagsDefaults))
              (testCluster "cluster1" (Some {[ ANNOTATION_CAPI_CLUSTER_TAGS := "" ]}))
              EmptyString Hempty)
    as (tags & Hann & Htags & _).
  rewrite Htags. rewrite <- Hann. vm_compute. reflexivity.
Defined.

(** X21.  Splitting a tags annotation at its commas loses nothing: the
    pieces, before they are trimmed, joined with commas give the annotation
    back. *)
Theorem tags_split_loses_nothing (value : string) :
  join "," (split "," value) = value.
Proof.
  induction value as [|c rest IH]; simpl; [done|].
  destruct (split_cons "," rest) as (piece & pieces & Hs). rewrite Hs in IH |- *.
  destruct (Ascii.eqb c ",") eqn:Hc.
  - apply Ascii.eqb_eq in Hc as ->.
    change (join "," ("" :: piece :: pieces))
      with ("" ++ String "," (join "," (piece :: pieces)))%string.
    by rewrite IH.
  - destruct pieces as [|next pieces].
    + simpl in *. by rewrite IH.
    + change (join "," (String c piece :: next :: pieces))
        with (String c (piece ++ String "," (join "," (next :: pieces))))%string.
      change (join "," (piece :: next :: pieces))
        with (piece ++ String "," (join "," (next :: pieces)))%string in IH.
      by rewrite IH.
Qed.

(** ** More on reading the provider configuration *)

(** X22.  A multi-provider configuration is read as a whole or not at all:
    when any child of the node fails to parse, [readProviderConfigs] throws,
    and what it throws is the error of a child that failed; no provider of
    the other children is returned. *)
Theorem multi_provider_read_is_all_or_nothing {C : Type} `{Config C}
    {Schedule : Type} (readSchedule : C -> Result Schedule)
    (root node : C) (name : string) (e : Exn) :
  getOptionalConfig root "catalog.providers.capi" = Ok (Some node) ->
  has node "hubClusterName" = false ->
  name ∈ keys node ->
  readChild readSchedule node name = Throw e ->
  exists e',
    readProviderConfigs readSchedule root = Throw e'
    /\ exists failed,
         failed ∈ keys node /\ readChild readSchedule node failed = Throw e'.
Proof.
  intros Hnode Hhas Hin Hchild.
  unfold readProviderConfigs, PROVIDERS_PATH. rewrite Hnode. simpl. rewrite Hhas.
  by apply (mapR_throw_elem _ _ name e).
Qed.

Lemma multi_provider_read_witness :
  exists e', readProviderConfigs scheduleOfConfig brokenChildDoc = Throw e'.
Proof.
  destruct (getOptionalConfig brokenChildDoc "catalog.providers.capi")
    as [[node|]|e0] eqn:Hnode; try (vm_compute in Hnode; discriminate).
  assert (Hshape : node =
    {| cr_data :=
         [("eu", JObj [("hubClusterName", JStr "eu-cluster")]);
          ("us", JObj [("defaults", JObj [("clusterOwner", JStr "group:us")])])] |})
    by (vm_compute in Hnode; by inversion Hnode).
  destruct (multi_provider_read_is_all_or_nothing scheduleOfConfig brokenChildDoc node
              "us" (Error "Missing required config value at 'hubClusterName'") Hnode)
    as (e' & Hthrow & _).
  - by rewrite Hshape.
  - rewrite Hshape. right. by left.
  - by rewrite Hshape.
  - by exists e'.
Defined.

Lemma parseDefaults_block {C : Type} `{Config C} (block : C) defaults :
  parseDefaults (Some block) = Ok defaults ->
  exists d,
    defaults = Some d
    /\ getOptionalString block "clusterOwner" = Ok (def_clusterOwner d)
    /\ getOptionalString block "system" = Ok (def_system d)
    /\ getOptionalString block "lifecycle" = Ok (def_lifecycle d)
    /\ getOptionalStringArray block "tags" = Ok (def_tags d).
Proof.
  unfold parseDefaults. intros Hparse.
  destruct (getOptionalString block "clusterOwner") as [owner|e]; simpl in Hparse;
    [|discriminate].
  destruct (getOptionalString block "system") as [system|e]; simpl in Hparse;
    [|discriminate].
  destruct (getOptionalString block "lifecycle") as [lifecycle|e]; simpl in Hparse;
    [|discriminate].
  destruct (getOptionalStringArray block "tags") as [tags|e]; simpl in Hparse;
    [|discriminate].
  inversion Hparse. eexists. split; [reflexivity|]. by repeat split.
Qed.

(** X23.  A provider configuration that was read holds what the node says:
    the hub cluster name is the node's [hubClusterName]; the schedule is
    unset exactly when the node has no [schedule]; the defaults are unset
    exactly when the node has no [defaults] block, and otherwise hold the
    block's [clusterOwner], [system], [lifecycle] and [tags], each unset when
    the block does not have it. *)
Theorem readProviderConfig_reflects_node {C : Type} `{Config C}
    {Schedule : Type} (readSchedule : C -> Result Schedule)
    (id : string) (config : C) (provider : ProviderConfig Schedule) :
  readProviderConfig readSchedule id config = Ok provider ->
  getString config "hubClusterName" = Ok (cfg_hubClusterName provider)
  /\ (cfg_schedule provider = None <-> has config "schedule" = false)
  /\ (cfg_defaults provider = None <-> getOptionalConfig config "defaults" = Ok None)
  /\ (forall defaults,
        cfg_defaults provider = Some defaults ->
        exists block,
          getOptionalConfig config "defaults" = Ok (Some block)
          /\ getOptionalString block "clusterOwner" = Ok (def_clusterOwner defaults)
          /\ getOptionalString block "system" = Ok (def_system defaults)
          /\ getOptionalString block "lifecycle" = Ok (def_lifecycle defaults)
          /\ getOptionalStringArray block "tags" = Ok (def_tags defaults)).
Proof.
  unfold readProviderConfig. intros Hread.
  destruct (getString config "hubClusterName") as [hub|e]; simpl in Hread; [|discriminate].
  destruct (if has config "schedule" then _ else _) as [schedule|e] eqn:Hschedule;
    simpl in Hread; [|discriminate].
  destruct (getOptionalConfig config "defaults") as [block|e] eqn:Hblock;
    simpl in Hread; [|discriminate].
  destruct (parseDefaults block) as [defaults|e] eqn:Hdefaults;
    simpl in Hread; [|discriminate].
  inversion Hread; subst; cbn. clear Hread.
  split; [done|]. split; [|split].
  - destruct (has config "schedule").
    + destruct (getConfig config "schedule") as [sc|e]; simpl in Hschedule;
        [|discriminate].
      destruct (readSchedule sc); simpl in Hschedule; [|discriminate].
      inversion Hschedule. split; discriminate.
    + by inversion Hschedule.
  - destruct block as [block|].
    + destruct (parseDefaults_block block defaults Hdefaults) as (d & -> & _).
      split; discriminate.
    + by inversion Hdefaults.
  - intros d ->. destruct block as [block|]; [|by inversion Hdefaults].
    destruct (parseDefaults_block block _ Hdefaults) as (d' & [= <-] & Hfields).
    by exists block.
Qed.

Lemma readProviderConfig_reflects_witness :
  exists provider,
    readProviderConfig scheduleOfConfig "default" readmeProviderNode = Ok provider
    /\ cfg_hubClusterName provider = "production-cluster"
    /\ cfg_schedule provider <> None.
Proof.
  destruct (readProviderConfig scheduleOfConfig "default" readmeProviderNode)
    as [provider|e] eqn:Hread; [|vm_compute in Hread; discriminate].
  destruct (readProviderConfig_reflects_node scheduleOfConfig "default"
              readmeProviderNode provider Hread) as (Hhub & Hsched & _).
  exists provider. split; [done|]. split.
  - vm_compute in Hhub. by inversion Hhub.
  - intros Hnone. apply Hsched in Hnone. vm_compute in Hnone. discriminate.
Defined.

(** ** The two provider variants side by side *)

(** X24.  Adding the kubeconfig lookup changed nothing but the API-server
    annotations: for providers with the same configuration, an entity mapped
    by the later variant has the same spec, name, title, description and tags
    as the entity the earlier variant maps from the same cluster, and the
    same value under every annotation key other than the three API-server
    keys. *)
Theorem variants_agree_outside_api_annotations {Schedule : Type}
    (this : WithKubeConfig.CAPIClusterProvider Schedule)
    (basic : Basic.CAPIClusterProvider Schedule)
    (kubeConfigs : gmap string (option KubeConfig)) (cluster : Cluster)
    (resource : ResourceEntity) :
  Basic.config basic = WithKubeConfig.config this ->
  WithKubeConfig.toResource this kubeConfigs cluster = Ok resource ->
  let earlier := Basic.toResource basic cluster in
  ent_kind resource = ent_kind earlier
  /\ ent_apiVersion resource = ent_apiVersion earlier
  /\ ent_spec resource = ent_spec earlier
  /\ em_name (ent_metadata resource) = em_name (ent_metadata earlier)
  /\ em_title (ent_metadata resource) = em_title (ent_metadata earlier)
  /\ em_description (ent_metadata resource) = em_description (ent_metadata earlier)
  /\ em_tags (ent_metadata resource) = em_tags (ent_metadata earlier)
  /\ forall key,
       key <> "kubernetes.io/api-server" ->
       key <> "kubernetes.io/api-server-certificate-authority" ->
       key <> "kubernetes.io/auth-provider" ->
       em_annotations (ent_metadata resource) !! key
       = em_annotations (ent_metadata earlier) !! key.
Proof.
  intros Hconfig Hres earlier. subst earlier.
  assert (Hlit : forall server caData,
    let literal := resourceLiteral this server caData cluster in
    ent_kind literal = ent_kind (Basic.toResource basic cluster)
    /\ ent_apiVersion literal = ent_apiVersion (Basic.toResource basic cluster)
    /\ ent_spec literal = ent_spec (Basic.toResource basic cluster)
    /\ em_name (ent_metadata literal) = em_name (ent_metadata (Basic.toResource basic cluster))
    /\ em_title (ent_metadata literal) = em_title (ent_metadata (Basic.toResource basic cluster))
    /\ em_description (ent_metadata literal)
       = em_description (ent_metadata (Basic.toResource basic cluster))
    /\ em_tags (ent_metadata literal) = em_tags (ent_metadata (Basic.toResource basic cluster))
    /\ forall key,
         key <> "kubernetes.io/api-server" ->
         key <> "kubernetes.io/api-server-certificate-authority" ->
         key <> "kubernetes.io/auth-provider" ->
         em_annotations (ent_metadata literal) !! key
         = em_annotations (ent_metadata (Basic.toResource basic cluster)) !! key).
  { intros server caData literal. subst literal.
    unfold resourceLiteral, Basic.toResource, WithKubeConfig.getProviderName,
      Basic.getProviderName. rewrite Hconfig. cbn.
    repeat split. intros key Hserver Hca Hauth.
    unfold objectOf. cbn [foldl fst snd].
    unfold ANNOTATION_KUBERNETES_AUTH_PROVIDER, ANNOTATION_KUBERNETES_API_SERVER_CA,
      ANNOTATION_KUBERNETES_API_SERVER.
    by rewrite !(lookup_insert_ne _ _ key) by done. }
  destruct (WithKubeConfig.mapGet kubeConfigs (clusterName cluster)) as [kc|] eqn:Hget.
  - destruct (clusters kc) as [|first rest] eqn:Hfirst.
    + by rewrite (toResource_unloaded this _ _ _ Hget Hfirst) in Hres.
    + rewrite (toResource_present this _ _ _ _ _ Hget Hfirst) in Hres.
      inversion Hres; subst resource. clear Hres.
      destruct (Hlit (Some (kc_server first)) (kc_caData first))
        as (Hk & Ha & Hs & Hn & Ht & Hd & Hg & Hann).
      unfold setAnnotation. cbn [ent_kind ent_apiVersion ent_spec ent_metadata em_name
        em_title em_description em_tags em_annotations].
      do 7 (split; [assumption|]). intros key Hserver Hca Hauth.
      unfold ANNOTATION_KUBERNETES_AUTH_PROVIDER, ANNOTATION_KUBERNETES_API_SERVER_CA,
        ANNOTATION_KUBERNETES_API_SERVER.
      rewrite !(lookup_insert_ne _ _ key) by done. by apply Hann.
  - rewrite (toResource_absent this _ _ Hget) in Hres. inversion Hres; subst resource.
    apply Hlit.
Qed.

Lemma variants_agree_witness :
  exists resource,
    WithKubeConfig.toResource (testProvider (Ok [cluster1]) noSecrets
                                 (Some testTeamDefaults)) ∅ cluster1 = Ok resource
    /\ ent_spec resource
       = ent_spec (Basic.toResource (basicProvider (Ok [cluster1])
                                       (Some testTeamDefaults)) cluster1)
    /\ em_annotations (ent_metadata resource) !! ANNOTATION_CAPI_PROVIDER
       = em_annotations
           (ent_metadata (Basic.toResource (basicProvider (Ok [cluster1])
                                              (Some testTeamDefaults)) cluster1))
         !! ANNOTATION_CAPI_PROVIDER.
Proof.
  destruct (WithKubeConfig.toResource (testProvider (Ok [cluster1]) noSecrets
                                         (Some testTeamDefaults)) ∅ cluster1)
    as [resource|e] eqn:Hres; [|vm_compute in Hres; discriminate].
  destruct (variants_agree_outside_api_annotations
              (testProvider (Ok [cluster1]) noSecrets (Some testTeamDefaults))
              (basicProvider (Ok [cluster1]) (Some testTeamDefaults))
              ∅ cluster1 resource eq_refl Hres)
    as (_ & _ & Hspec & _ & _ & _ & _ & Hann).
  exists resource. split; [done|]. split; [exact Hspec|].
  apply Hann; discriminate.
Defined.
